(* ===== verification/_CoqProject ===== *)
-Q . S2P
Prelude.v
PyValue.v
PyExec.v
ChatAssistant.v
Import.v
HostPaths.v
HostLoader.v
HostStartup.v
