(* ===== verification/Prelude.v ===== *)
(** * A verification development for comfyui-chat-assistant

    ** The program

    The repository is a plugin ("custom node package") for ComfyUI.  Its only
    Python source, [src/__init__.py], is a package initialiser of fifteen
    lines: a module docstring (lines 1-5), the string constant
    [WEB_DIRECTORY = "./js"] (line 8), two annotated assignments of empty
    dicts, [NODE_CLASS_MAPPINGS: dict = {}] and
    [NODE_DISPLAY_NAME_MAPPINGS: dict = {}] (lines 11-12), and the export list
    [__all__] naming those three values (line 15).  The program does nothing
    by itself: its behaviour is what the Python runtime does when it executes
    that body, what the import system does when the host imports the package
    (module cache, [from ... import *], reload), and what the host's loader
    does with the three exported values (read them by their fixed names, merge
    the mappings into its node registries, resolve the web directory relative
    to the package directory and serve it when it exists).

    The parts interact as follows: the host asks the import system for the
    package; the import system creates a module object, registers it in
    [sys.modules], runs the body of [__init__.py] in the module's namespace and
    hands the namespace back; the host reads [WEB_DIRECTORY],
    [NODE_CLASS_MAPPINGS] and [NODE_DISPLAY_NAME_MAPPINGS] from it and updates
    its own state.

    ** The files

    - [Prelude] (this file): the result monad in which Python exceptions are
      values, its notation scope [py_scope], the tactics and the hint
      databases [pymodel] (resolution) and [pyrw] (rewriting) shared by the other files.
    - [PyValue]: the Python values the program manipulates (str, list, dict,
      None, type objects), with decidable equality, and the insertion-ordered
      [dict] of CPython with [d[k] = v], [d[k]], [d.update(e)] and [d.keys()]
      as [dict_setitem], [dict_getitem], [dict_update], [dict_keys]; the
      invariant that keys are distinct, preserved by every operation.
    - [PyExec]: module-level Python statements (expression statement,
      assignment, annotated assignment), name resolution through the module
      namespace and then [builtins] ([NameError] otherwise), the docstring
      rule and [SETUP_ANNOTATIONS]: [exec_module] runs a module body in a
      namespace ([gmap string pyval], the module's [__dict__]).
    - [ChatAssistant]: [src/__init__.py] itself, line by line, as the
      definitions [module_doc], [WEB_DIRECTORY], [NODE_CLASS_MAPPINGS],
      [NODE_DISPLAY_NAME_MAPPINGS], [__all__], one [stmt_*] definition per
      source statement and [module_body], their list; the abstract
      specification of what the package exports ([Manifest] and
      [manifest_wf]); [read_manifest], the host's retrieval of the three
      values by name; and the theorems that executing the body succeeds and
      refines the abstract manifest.
    - [Import]: [sys.modules] and [import_module] (create, register, execute,
      unregister on failure), [importlib.reload], and [from m import *]
      driven by [__all__].
    - [HostPaths]: the host's path handling: splitting a path string on [/],
      normalisation of [.], [..] and empty segments, and resolution of the
      web directory against the package directory.
    - [HostLoader]: the host's loader state (node registry, display-name
      registry, web directories), the load step, its step relation and the
      registry invariant.
    - [HostStartup]: the host's start-up loop ([startup], a [fold_left] of
      [load_package]): import each package, load its manifest, log and skip
      it on failure; it composes [Import] and [HostLoader].

    ** What is proved

    - execution: the body of [__init__.py] runs without exception from a
      fresh module namespace, and the resulting namespace binds the three
      exported names to the source's values; the body only writes the names
      it assigns (frame); re-running it (reload) is idempotent;
    - refinement: the namespace produced by the body yields, through the
      host's retrieval by name, exactly the abstract [Manifest], which is
      well formed (equal key sets, empty registries, non-empty path);
    - import: a fresh import creates the module with importlib's
      attributes, the docstring rule and the annotations in source order; a
      reload right after it returns the same module; [from pkg import *]
      succeeds and binds exactly
      the names of [__all__], which are exactly the module's public names;
      a reload whose body raises leaves the module partly re-initialised;
    - paths: [WEB_DIRECTORY] resolves to the subdirectory [js] of the package
      directory and never escapes it; for every package directory whatever
      its form, it resolves exactly as the bare name [js] does;
    - host: loading the package does not fail, adds no node type, keeps the
      host's registry invariant and registers the web directory exactly when
      it exists;
    - start-up: wherever the package sits among the host's packages, and
      whatever the others do, it is loaded and its web directory registered
      (liveness); a start-up with it ends with the same registries, and the
      same [sys.modules] but for its entry, as one without it (equivalence,
      by a simulation relation between the two runs); a reload restores the
      manifest whatever was done to the module's namespace since it was
      imported;
    - types: in a fresh module the body's annotations hold ([dict] values
      under [dict] annotations).

    ** Modelling choices, bounds and what is left out

    Nothing in the model loops: every function is structural (the start-up
    loop is a [fold_left] over the finite list of packages), so no fuel is
    needed and termination holds by construction; no theorem restates it,
    since it would hold whatever the package does.  Python exceptions are values of [result]; a module body that
    raises returns the exception together with the namespace as it was when
    the exception was raised ([exec_result], [raise_in]), because CPython
    keeps the names already bound, and [importlib.reload] leaves a module in
    that partial state.  Two interfaces connect the parts: the type class
    [PyMapping] (in [PyValue]) states the get/set laws that both the
    association-list [dict] and the [gmap] namespace satisfy, and the class
    [HostExtension] (in [HostLoader]) states what an extension package
    promises the host loader (a namespace, a manifest read from it, well
    formed); the loader's lemmas are proved against the class and the
    package's instance discharges it.  Dicts and lists
    are values, not heap objects: no claim depends on aliasing, because the
    host copies entries out of the package's dicts ([dict_update]) instead of
    keeping them.  Annotations follow CPython 3.8 to 3.13 (eager evaluation
    into the module's [__annotations__]; 3.14 evaluates them lazily).  Dict
    keys are strings, which is what node type identifiers are.  The program
    computes with no integers, so there is no width or overflow behaviour to
    bound.  The host loader and the path resolution are modelled from the
    specification, since their code is the host's, not this repository's.

    ** Not modelled

    Everything of [src/__init__.py] is modelled, all fifteen lines.  The
    following is left out, and why:
    - the front-end assets under [js/] (the sidebar chat interface and the
      prompt expansion the docstring mentions): they are not part of the
      repository's sources, and the manifest treats them as opaque;
    - the host's asset server and its HTTP routing: host code the
      specification places out of scope; only the registration of the
      directory it serves is modelled;
    - the parts of [importlib] the package does not exercise: loader and
      spec objects, [__cached__] and bytecode caching, submodule search
      through [__path__]; the import system is therefore only partly
      modelled;
    - host behaviour the specification does not describe: the list of
      built-in node names that custom nodes may not override, and the
      attributes the host sets on node classes; the host loader is
      therefore only partly modelled;
    - lazily evaluated annotations (Python 3.14);
    - the [__builtins__] entry that [exec] adds to a module's namespace
      before running its code: the frame theorem of [ChatAssistant] is exact
      for the names the body's code object writes, not for everything a
      whole import puts in [__dict__].

    ** What the modelling showed

    Executing the body writes more than the three exported names: it also
    binds [__doc__], [__annotations__] (with both names mapped to [dict])
    and [__all__] (ChatAssistant, [module_body_annotations]); the docstring
    is dropped under [python -OO] ([module_body_doc]); when the namespace
    already holds an [__annotations__] that is not a dict, the body raises
    [TypeError] after binding [WEB_DIRECTORY] and [NODE_CLASS_MAPPINGS] only
    ([module_body_bad_annotations]); and the existence of [js/] cannot be
    established from the sources, so the host registers the web directory
    only when its file system says it exists ([load_chat_assistant]). *)

From stdpp Require Import base list.
Set Default Goal Selector "!".

(** ** The result monad *)

(** A computation that returns a value of [A] or raises an exception of [E]. *)
Inductive result (E A : Type) : Type :=
| Ok (a : A)
| Err (e : E).
Arguments Ok {E A} a.
Arguments Err {E A} e.

Definition result_bind {E A B} (m : result E A) (k : A -> result E B) : result E B :=
  match m with
  | Ok a => k a
  | Err e => Err e
  end.

Definition result_map {E A B} (f : A -> B) (m : result E A) : result E B :=
  match m with
  | Ok a => Ok (f a)
  | Err e => Err e
  end.

(** [of_option e o] raises [e] when [o] is [None]. *)
Definition of_option {E A} (e : E) (o : option A) : result E A :=
  match o with
  | Some a => Ok a
  | None => Err e
  end.

Definition is_ok {E A} (m : result E A) : bool :=
  match m with Ok _ => true | Err _ => false end.

Declare Scope py_scope.
Delimit Scope py_scope with py.
Notation "x <- m ;; k" := (result_bind m (fun x => k))
  (at level 100, m at next level, k at level 200, right associativity) : py_scope.
Notation "m ;;; k" := (result_bind m (fun _ => k))
  (at level 100, k at level 200, right associativity) : py_scope.
Notation "'raise' e" := (Err e) (at level 10) : py_scope.
Open Scope py_scope.

(** ** Generic lemmas *)

Create HintDb pymodel discriminated.
Create Rewrite HintDb pyrw.

Lemma bind_Ok {E A B} (a : A) (k : A -> result E B) : result_bind (Ok a) k = k a.
Proof. reflexivity. Qed.

Lemma bind_Err {E A B} (e : E) (k : A -> result E B) : result_bind (Err e) k = Err e.
Proof. reflexivity. Qed.

Lemma bind_assoc {E A B C} (m : result E A) (k : A -> result E B) (h : B -> result E C) :
  result_bind (result_bind m k) h = result_bind m (fun a => result_bind (k a) h).
Proof. by destruct m. Qed.

Lemma bind_ret_r {E A} (m : result E A) : result_bind m Ok = m.
Proof. by destruct m. Qed.

(** Inversion of a successful bind. *)
Lemma bind_eq_Ok {E A B} (m : result E A) (k : A -> result E B) (b : B) :
  result_bind m k = Ok b <-> exists a, m = Ok a /\ k a = Ok b.
Proof.
  split.
  - destruct m as [a|e]; simpl; [by exists a | discriminate].
  - by intros (a & -> & Hk).
Qed.

Lemma bind_eq_Err {E A B} (m : result E A) (k : A -> result E B) (e : E) :
  result_bind m k = Err e <-> m = Err e \/ exists a, m = Ok a /\ k a = Err e.
Proof.
  split.
  - destruct m as [a|e']; simpl; [right; by exists a | intros [= ->]; by left].
  - by intros [-> | (a & -> & Hk)].
Qed.

Lemma of_option_Ok {E A} (e : E) (o : option A) (a : A) :
  of_option e o = Ok a <-> o = Some a.
Proof. destruct o; simpl; split; congruence. Qed.

#[export] Hint Rewrite @bind_Ok @bind_Err @bind_assoc @bind_ret_r : pyrw.

(** ** Tactics *)

Ltac invc H := inversion H; subst; clear H.

(** Split every successful bind of a hypothesis into its two steps. *)
Ltac result_inv :=
  repeat match goal with
  | H : result_bind _ _ = Ok _ |- _ =>
      apply bind_eq_Ok in H; destruct H as (? & ? & H)
  | H : of_option _ _ = Ok _ |- _ => apply of_option_Ok in H
  | H : Ok _ = Ok _ |- _ => injection H as H
  | H : Err _ = Ok _ |- _ => discriminate H
  end.

(** Run a concrete computation and close the goal by evaluation. *)
Ltac py_eval := vm_compute; reflexivity.

(** Close a closed decidable proposition by evaluating its decision. *)
Ltac decide_closed := apply (bool_decide_unpack _); vm_compute; exact I.
