(* ===== verification/PyValue.v ===== *)
(** * Python values and CPython's insertion-ordered [dict]

    The values that [src/__init__.py] creates or names: strings, lists of
    strings ([__all__]), dicts ([NODE_CLASS_MAPPINGS],
    [NODE_DISPLAY_NAME_MAPPINGS], the module's [__annotations__]), [None] and
    type objects ([dict]).  A dict is an association list in insertion order,
    as CPython keeps it since 3.7: assigning to an existing key replaces the
    value in place, a new key goes to the end.  The interface [PyMapping]
    states what a string-keyed mapping promises (the dicts here, the module
    namespaces of [PyExec]); [set_all] and its lemmas are proved once against
    it. *)

From stdpp Require Import base list sets strings.
From S2P Require Import Prelude.
Set Default Goal Selector "!".
Set Warnings "-register-all".

Inductive pyval : Type :=
| VNone
| VStr (s : string)
| VList (l : list pyval)
| VDict (d : list (string * pyval))
| VType (name : string).

#[export] Instance pyval_eq_dec : EqDecision pyval.
Proof.
  refine (fix go (v1 v2 : pyval) {struct v1} : Decision (v1 = v2) :=
    match v1, v2 with
    | VNone, VNone => left eq_refl
    | VStr s, VStr s' => cast_if (decide (s = s'))
    | VType n, VType n' => cast_if (decide (n = n'))
    | VList l, VList l' => cast_if (@list_eq_dec _ go l l')
    | VDict d, VDict d' => cast_if (@list_eq_dec _ (@prod_eq_dec _ _ _ go) d d')
    | _, _ => right _
    end); congruence.
Defined.

(** A dict with string keys, in insertion order. *)
Abbreviation pydict := (list (string * pyval)).

(** [type(v).__name__]. *)
Definition type_name (v : pyval) : string :=
  match v with
  | VNone => "NoneType"
  | VStr _ => "str"
  | VList _ => "list"
  | VDict _ => "dict"
  | VType _ => "type"
  end.

(** ** Dict operations *)

(** [d[k]]: the value of the first entry with key [k] ([None] is [KeyError]). *)
Fixpoint dict_getitem (d : pydict) (k : string) : option pyval :=
  match d with
  | [] => None
  | (k', v) :: d' => if decide (k' = k) then Some v else dict_getitem d' k
  end.

(** [d[k] = v]: replace the value in place when [k] is present, else append. *)
Fixpoint dict_setitem (d : pydict) (k : string) (v : pyval) : pydict :=
  match d with
  | [] => [(k, v)]
  | (k', v') :: d' =>
      if decide (k' = k) then (k', v) :: d' else (k', v') :: dict_setitem d' k v
  end.

(** [d.update(e)]: store the items of [e] into [d], in [e]'s order. *)
Definition dict_update (d e : pydict) : pydict :=
  fold_left (fun acc kv => dict_setitem acc kv.1 kv.2) e d.

(** [{k1: v1, ..., kn: vn}]: a literal is built by storing its items into an
    empty dict, so a repeated key keeps its first position and its last value. *)
Definition dict_of_items (items : pydict) : pydict := dict_update [] items.

(** [list(d.keys())] and [len(d)]. *)
Definition dict_keys (d : pydict) : list string := map fst d.
Definition dict_len (d : pydict) : nat := length d.

(** The representation invariant: no key occurs twice. *)
Definition dict_wf (d : pydict) : Prop := NoDup (dict_keys d).

#[export] Instance dict_wf_dec d : Decision (dict_wf d).
Proof. unfold dict_wf. apply _. Defined.

(** ** The mapping interface *)

(** What a string-keyed Python mapping promises to its clients. *)
Class PyMapping (M : Type) := {
  map_get : M -> string -> option pyval;
  map_set : M -> string -> pyval -> M;
  map_get_set_eq m k v : map_get (map_set m k v) k = Some v;
  map_get_set_ne m k k' v : k <> k' -> map_get (map_set m k v) k' = map_get m k'
}.

(** Store a list of bindings, left to right. *)
Definition set_all {M} `{PyMapping M} (m : M) (kvs : list (string * pyval)) : M :=
  fold_left (fun acc kv => map_set acc kv.1 kv.2) kvs m.

(** ** Lemmas on dicts *)

Lemma dict_getitem_setitem_eq d k v : dict_getitem (dict_setitem d k v) k = Some v.
Proof.
  induction d as [|[k' v'] d IH]; simpl; [by rewrite decide_True|].
  case_decide; simpl; [by rewrite decide_True|]. by rewrite decide_False.
Qed.

Lemma dict_getitem_setitem_ne d k k' v :
  k <> k' -> dict_getitem (dict_setitem d k v) k' = dict_getitem d k'.
Proof.
  intros Hne. induction d as [|[k0 v0] d IH]; simpl.
  - by rewrite decide_False.
  - case_decide; simpl; repeat case_decide; subst; congruence.
Qed.

#[export] Instance dict_mapping : PyMapping pydict := {
  map_get := dict_getitem;
  map_set := dict_setitem;
  map_get_set_eq := dict_getitem_setitem_eq;
  map_get_set_ne := dict_getitem_setitem_ne
}.

Lemma dict_keys_setitem_elem d k v x :
  x ∈ dict_keys (dict_setitem d k v) <-> x = k \/ x ∈ dict_keys d.
Proof.
  unfold dict_keys. induction d as [|[k' v'] d IH]; simpl.
  - set_solver.
  - case_decide; subst; simpl; [set_solver|]. rewrite !elem_of_cons, IH. tauto.
Qed.

(** Storing an existing key keeps the key list; a new key goes last. *)
Lemma dict_keys_setitem d k v :
  dict_keys (dict_setitem d k v) =
  if decide (k ∈ dict_keys d) then dict_keys d else dict_keys d ++ [k].
Proof.
  unfold dict_keys. induction d as [|[k' v'] d IH]; simpl; [done|].
  destruct (decide (k' = k)) as [->|Hne]; simpl.
  - clear IH. case_decide; [done|set_solver].
  - rewrite IH. repeat case_decide; first [done | set_solver].
Qed.

Lemma dict_setitem_wf d k v : dict_wf d -> dict_wf (dict_setitem d k v).
Proof.
  unfold dict_wf. rewrite dict_keys_setitem. case_decide; [done|].
  intros Hd. apply NoDup_app. split_and!; [done| |apply NoDup_singleton]. set_solver.
Qed.

Lemma dict_setitem_id d k v : dict_getitem d k = Some v -> dict_setitem d k v = d.
Proof.
  induction d as [|[k' v'] d IH]; simpl; [discriminate|].
  destruct (decide (k' = k)); [congruence|]. intros Hg. by rewrite IH.
Qed.

Lemma dict_setitem_setitem d k v w :
  dict_setitem (dict_setitem d k v) k w = dict_setitem d k w.
Proof.
  induction d as [|[k' v'] d IH]; simpl; [by rewrite decide_True|].
  case_decide; simpl; [by rewrite decide_True|]. rewrite decide_False by done. by rewrite IH.
Qed.

Lemma dict_setitem_length d k v :
  dict_len (dict_setitem d k v) = if decide (k ∈ dict_keys d) then dict_len d else S (dict_len d).
Proof.
  unfold dict_len. rewrite <- !(length_map fst).
  change (map fst ?l) with (dict_keys l). rewrite dict_keys_setitem.
  destruct (decide _); [done|]. rewrite length_app. simpl. lia.
Qed.

Lemma dict_update_cons d kv e :
  dict_update d (kv :: e) = dict_update (dict_setitem d kv.1 kv.2) e.
Proof. reflexivity. Qed.

Lemma dict_update_wf d e : dict_wf d -> dict_wf (dict_update d e).
Proof.
  revert d. induction e as [|[k v] e IH]; intros d Hd; [done|].
  rewrite dict_update_cons. apply IH, dict_setitem_wf, Hd.
Qed.

Lemma dict_keys_update_elem d e x :
  x ∈ dict_keys (dict_update d e) <-> x ∈ dict_keys e \/ x ∈ dict_keys d.
Proof.
  revert d. induction e as [|[k v] e IH]; intros d; [simpl; set_solver|].
  rewrite dict_update_cons, IH, dict_keys_setitem_elem.
  change (dict_keys ((k, v) :: e)) with (k :: dict_keys e).
  rewrite elem_of_cons. simpl. tauto.
Qed.

Lemma dict_getitem_None d k : dict_getitem d k = None <-> k ∉ dict_keys d.
Proof.
  unfold dict_keys. induction d as [|[k' v] d IH]; simpl; [set_solver|].
  rewrite elem_of_cons. case_decide; subst; [split; [discriminate|set_solver]|].
  rewrite IH. naive_solver.
Qed.

(** Updating with a dict whose keys are distinct: its entries win. *)
Lemma dict_getitem_update d e k :
  dict_wf e ->
  dict_getitem (dict_update d e) k =
  match dict_getitem e k with Some v => Some v | None => dict_getitem d k end.
Proof.
  unfold dict_wf. revert d. induction e as [|[k' v] e IH]; intros d Hnd; [done|].
  inversion Hnd as [|? ? Hk' Hnd']; subst.
  rewrite dict_update_cons, IH by done. simpl.
  destruct (decide (k' = k)) as [->|Hne].
  - destruct (dict_getitem e k) eqn:E.
    + exfalso. pose proof (proj2 (dict_getitem_None e k) Hk'). congruence.
    + apply dict_getitem_setitem_eq.
  - destruct (dict_getitem e k); [done|]. by apply dict_getitem_setitem_ne.
Qed.

(** Updating with an empty dict changes nothing. *)
Lemma dict_update_nil d : dict_update d [] = d.
Proof. reflexivity. Qed.

(** ** Lemmas on the interface *)

Section SetAll.
Context {M : Type} `{PyMapping M}.

Lemma set_all_cons (m : M) kv kvs : set_all m (kv :: kvs) = set_all (map_set m kv.1 kv.2) kvs.
Proof. reflexivity. Qed.

(** A key that no binding names keeps its value. *)
Lemma set_all_get_notin (m : M) kvs k :
  k ∉ kvs.*1 -> map_get (set_all m kvs) k = map_get m k.
Proof.
  revert m. induction kvs as [|[k' v] kvs IH]; intros m Hk; simpl in *; [done|].
  rewrite IH by set_solver. apply map_get_set_ne. set_solver.
Qed.

(** A key bound once, at the last binding that names it, has that value. *)
Lemma set_all_get_last (m : M) kvs k v :
  k ∉ kvs.*1 -> map_get (set_all m (kvs ++ [(k, v)])) k = Some v.
Proof.
  intros Hk. unfold set_all. rewrite fold_left_app. simpl. apply map_get_set_eq.
Qed.
End SetAll.

#[export] Hint Resolve dict_setitem_wf dict_update_wf : pymodel.
#[export] Hint Rewrite dict_getitem_setitem_eq dict_setitem_setitem dict_update_nil : pyrw.
