(* ===== verification/PyExec.v ===== *)
(** * Executing a module body

    The statements that occur at the top level of [src/__init__.py] and how
    CPython runs them in the module's namespace (its [__dict__], here a
    [gmap string pyval]):
    - an expression statement evaluates its expression;
    - [x = e] evaluates [e] and binds [x] ([STORE_NAME]);
    - [x: a = e] at module level (CPython 3.8 to 3.13) binds [x] first, then
      evaluates the annotation [a], loads [__annotations__] by name and stores
      [a] under the key ["x"] ([compiler_annassign]);
    - names are loaded from the module namespace, then from [builtins]
      ([LOAD_NAME]), and a missing name raises [NameError];
    - a module body whose first statement is a string literal stores it in
      [__doc__] (unless optimisation level 2, [-OO], strips docstrings), and a
      body that contains an annotated assignment starts with
      [SETUP_ANNOTATIONS], which creates an empty [__annotations__] dict when
      none is bound ([compiler_body], [ceval.c]).
    A raised exception stops the body: the statements after it do not run,
    and the error carries the namespace as it was when the exception was
    raised (the module's [__dict__] is mutated in place, so the stores made
    before the exception stay visible to whoever holds the module). *)

From stdpp Require Import base list sets gmap strings.
From S2P Require Import Prelude PyValue.
Set Default Goal Selector "!".
Set Warnings "-register-all".

(** ** Exceptions, names and namespaces *)

Inductive pyexc : Type :=
| NameError (name : string)
| TypeError (msg : string)
| AttributeError (obj attr : string)
| ModuleNotFoundError (name : string)
| ImportError (msg : string)
| KeyError (key : string).

#[export] Instance pyexc_eq_dec : EqDecision pyexc.
Proof. solve_decision. Defined.

(** A module's [__dict__]. *)
Abbreviation namespace := (gmap string pyval).

#[export] Instance namespace_mapping : PyMapping namespace := {
  map_get m k := m !! k;
  map_set m k v := <[k := v]> m;
  map_get_set_eq m k v := lookup_insert_eq m k v;
  map_get_set_ne m k k' v H := lookup_insert_ne m k k' v H
}.

(** The builtins the module can name: the type objects of the literals. *)
Definition builtins_ns : namespace :=
  list_to_map [("dict", VType "dict"); ("list", VType "list"); ("str", VType "str");
               ("tuple", VType "tuple"); ("object", VType "object")].

(** [LOAD_NAME] at module level: the module namespace, then [builtins]. *)
Definition load_name (ns : namespace) (x : string) : result pyexc pyval :=
  match ns !! x with
  | Some v => Ok v
  | None => of_option (NameError x) (builtins_ns !! x)
  end.

(** ** Syntax *)

Inductive expr : Type :=
| EStr (s : string)                       (** a string literal *)
| EName (x : string)                      (** a name *)
| EList (es : list expr)                  (** a list display [[e1, ..., en]] *)
| EDict (items : list (string * expr)).   (** a dict display with literal keys *)

Inductive stmt : Type :=
| SExpr (e : expr)                        (** an expression statement *)
| SAssign (x : string) (e : expr)         (** [x = e] *)
| SAnnAssign (x : string) (a e : expr).   (** [x: a = e] *)

(** ** Evaluation *)

(** Displays evaluate their elements left to right; a dict display is then
    built by storing its items into an empty dict ([BUILD_MAP]). *)
Fixpoint eval_expr (ns : namespace) (e : expr) {struct e} : result pyexc pyval :=
  match e with
  | EStr s => Ok (VStr s)
  | EName x => load_name ns x
  | EList es =>
      result_map VList
        ((fix eval_list (es : list expr) : result pyexc (list pyval) :=
            match es with
            | [] => Ok []
            | e :: es => v <- eval_expr ns e ;; vs <- eval_list es ;; Ok (v :: vs)
            end) es)
  | EDict items =>
      result_map (fun kvs => VDict (dict_of_items kvs))
        ((fix eval_items (items : list (string * expr)) : result pyexc pydict :=
            match items with
            | [] => Ok []
            | (k, e) :: items =>
                v <- eval_expr ns e ;; kvs <- eval_items items ;; Ok ((k, v) :: kvs)
            end) items)
  end.

(** [__annotations__[x] = a]: load the dict by name, then store into it. *)
Definition store_annotation (ns : namespace) (x : string) (a : pyval)
    : result pyexc namespace :=
  ann <- load_name ns "__annotations__" ;;
  match ann with
  | VDict d => Ok (<["__annotations__" := VDict (dict_setitem d x a)]> ns)
  | _ => raise (TypeError "object does not support item assignment")
  end.

(** The outcome of running statements: the final namespace, or the
    exception with the namespace at the point it was raised. *)
Abbreviation exec_result := (result (pyexc * namespace) namespace).

(** An exception raised while the namespace is [ns]. *)
Definition raise_in {A} (ns : namespace) (m : result pyexc A) : result (pyexc * namespace) A :=
  match m with
  | Ok a => Ok a
  | Err e => Err (e, ns)
  end.

Definition exec_stmt (ns : namespace) (s : stmt) : exec_result :=
  match s with
  | SExpr e => raise_in ns (eval_expr ns e) ;;; Ok ns
  | SAssign x e => v <- raise_in ns (eval_expr ns e) ;; Ok (<[x := v]> ns)
  | SAnnAssign x a e =>
      v <- raise_in ns (eval_expr ns e) ;;
      let ns1 := <[x := v]> ns in
      av <- raise_in ns1 (eval_expr ns1 a) ;;
      raise_in ns1 (store_annotation ns1 x av)
  end.

(** Statements run in order; the first exception ends the body. *)
Fixpoint exec_stmts (ns : namespace) (body : list stmt) : exec_result :=
  match body with
  | [] => Ok ns
  | s :: body => ns' <- exec_stmt ns s ;; exec_stmts ns' body
  end.

Definition is_annassign (s : stmt) : bool :=
  match s with SAnnAssign _ _ _ => true | _ => false end.

(** [find_ann]: whether the body has an annotated assignment. *)
Definition has_annotations (body : list stmt) : bool := existsb is_annassign body.

(** [SETUP_ANNOTATIONS]: bind a fresh dict unless [__annotations__] is bound. *)
Definition setup_annotations (ns : namespace) : namespace :=
  match ns !! "__annotations__" with
  | Some _ => ns
  | None => <["__annotations__" := VDict []]> ns
  end.

(** [_PyAST_GetDocString]: a first statement that is a string literal. *)
Definition docstring (body : list stmt) : option (string * list stmt) :=
  match body with
  | SExpr (EStr doc) :: rest => Some (doc, rest)
  | _ => None
  end.

(** [compiler_body] followed by the run of the module's code object. *)
Definition exec_module (optimize : nat) (body : list stmt) (ns : namespace) : exec_result :=
  let ns1 := if has_annotations body then setup_annotations ns else ns in
  match docstring body with
  | Some (doc, rest) =>
      let ns2 := if decide (optimize < 2) then <["__doc__" := VStr doc]> ns1 else ns1 in
      exec_stmts ns2 rest
  | None => exec_stmts ns1 body
  end.

(** The names a statement may write. *)
Definition stmt_writes (s : stmt) : list string :=
  match s with
  | SExpr _ => []
  | SAssign x _ => [x]
  | SAnnAssign x _ _ => [x; "__annotations__"]
  end.

Definition body_writes (body : list stmt) : list string :=
  "__doc__" :: "__annotations__" :: concat (map stmt_writes body).

(** The precondition of [SETUP_ANNOTATIONS] followed by a store into
    [__annotations__]: the name is unbound or bound to a dict. *)
Definition annotations_ok (ns : namespace) : Prop :=
  match ns !! "__annotations__" with
  | None | Some (VDict _) => True
  | Some _ => False
  end.

#[export] Instance annotations_ok_dec ns : Decision (annotations_ok ns).
Proof. unfold annotations_ok. repeat case_match; apply _. Defined.

(** Every entry [x: T] of the module's [__annotations__] whose [T] is a
    class holds for the value bound to [x] ([type(x).__name__ == T.__name__]);
    Python does not enforce annotations, so this is a property a module may
    or may not have. *)
Definition annotations_respected (ns : namespace) : bool :=
  match ns !! "__annotations__" with
  | Some (VDict anns) =>
      forallb (fun '(x, t) =>
        match t, ns !! x with
        | VType tn, Some v => (type_name v =? tn)%string
        | _, _ => false
        end) anns
  | _ => true
  end.

(** ** Lemmas *)

(** Resolve lookups through a chain of inserts at distinct literal keys. *)
Ltac ns_lookup :=
  repeat first [rewrite lookup_insert_eq | rewrite lookup_insert_ne by (done || congruence)].

Lemma load_name_insert_eq ns x v : load_name (<[x := v]> ns) x = Ok v.
Proof. unfold load_name. by rewrite lookup_insert_eq. Qed.

Lemma load_name_insert_ne ns x y v :
  x <> y -> load_name (<[x := v]> ns) y = load_name ns y.
Proof. intros Hne. unfold load_name. by rewrite lookup_insert_ne. Qed.

Lemma load_name_same ns ns' x : ns' !! x = ns !! x -> load_name ns' x = load_name ns x.
Proof. unfold load_name. by intros ->. Qed.

Lemma load_name_bound ns x v : ns !! x = Some v -> load_name ns x = Ok v.
Proof. unfold load_name. by intros ->. Qed.

(** A builtin that the module does not shadow resolves to the builtin. *)
Lemma load_name_builtin ns x : ns !! x = None -> load_name ns x = of_option (NameError x) (builtins_ns !! x).
Proof. unfold load_name. by intros ->. Qed.

Lemma store_annotation_Ok ns x a ns' :
  store_annotation ns x a = Ok ns' ->
  exists d, load_name ns "__annotations__" = Ok (VDict d) /\
            ns' = <["__annotations__" := VDict (dict_setitem d x a)]> ns.
Proof.
  unfold store_annotation. intros H. result_inv.
  match goal with v : pyval |- _ => destruct v end; try discriminate.
  injection H as <-. eauto.
Qed.

Lemma raise_in_Ok {A} ns (m : result pyexc A) a : raise_in ns m = Ok a <-> m = Ok a.
Proof. destruct m; simpl; split; congruence. Qed.

Lemma store_annotation_dict ns x a d :
  ns !! "__annotations__" = Some (VDict d) ->
  store_annotation ns x a = Ok (<["__annotations__" := VDict (dict_setitem d x a)]> ns).
Proof. unfold store_annotation, load_name. by intros ->. Qed.

Lemma exec_stmts_app ns b1 b2 :
  exec_stmts ns (b1 ++ b2) = (ns' <- exec_stmts ns b1 ;; exec_stmts ns' b2).
Proof.
  revert ns. induction b1 as [|s b1 IH]; intros ns; simpl; [done|].
  rewrite bind_assoc. destruct (exec_stmt ns s); simpl; [apply IH|done].
Qed.

(** Frame: a statement leaves every name it does not write unchanged. *)
Lemma exec_stmt_frame ns s ns' y :
  exec_stmt ns s = Ok ns' -> y ∉ stmt_writes s -> ns' !! y = ns !! y.
Proof.
  intros H Hy. destruct s as [e|x e|x a e]; simpl in *; result_inv;
    rewrite ?raise_in_Ok in *; subst; [done| |].
  - apply lookup_insert_ne. set_solver.
  - apply store_annotation_Ok in H as (d & _ & ->).
    rewrite !lookup_insert_ne; set_solver.
Qed.

Lemma exec_stmts_frame ns body ns' y :
  exec_stmts ns body = Ok ns' -> y ∉ concat (map stmt_writes body) -> ns' !! y = ns !! y.
Proof.
  revert ns. induction body as [|s body IH]; intros ns H Hy; simpl in *.
  - by injection H as <-.
  - result_inv. rewrite elem_of_app in Hy.
    rewrite (IH _ H) by tauto. eapply exec_stmt_frame; [eassumption|tauto].
Qed.

Lemma setup_annotations_lookup_ne ns y :
  y <> "__annotations__" -> setup_annotations ns !! y = ns !! y.
Proof. intros Hy. unfold setup_annotations. case_match; [done|]. by apply lookup_insert_ne. Qed.

(** Frame for a whole module body, docstring and annotations included. *)
Lemma exec_module_frame o body ns ns' y :
  exec_module o body ns = Ok ns' -> y ∉ body_writes body -> ns' !! y = ns !! y.
Proof.
  unfold exec_module, body_writes. intros H Hy.
  rewrite !elem_of_cons in Hy.
  assert (Hs : (if has_annotations body then setup_annotations ns else ns) !! y = ns !! y).
  { destruct (has_annotations body); [apply setup_annotations_lookup_ne; tauto|done]. }
  destruct (docstring body) as [[doc rest]|] eqn:Hd.
  - destruct body as [|[[]| |] ?]; simpl in Hd; try discriminate. injection Hd as <- <-.
    apply exec_stmts_frame with (y := y) in H; [|simpl in Hy; tauto].
    rewrite H. case_decide; [rewrite lookup_insert_ne by (intros <-; tauto)|]; apply Hs.
  - rewrite (exec_stmts_frame _ _ _ _ H) by tauto. apply Hs.
Qed.
