(* ===== verification/ChatAssistant.v ===== *)
(** * The package initialiser [src/__init__.py]

    The fifteen lines of the source as definitions: the docstring, the three
    exported values and the export list, and [module_body], the module as the
    statement list that [PyExec.exec_module] runs.  The exported values keep
    their source names, so [module_body] reads like the file.

    The contract between the package and the host is the abstract
    [Manifest] of the specification (a web asset path and two registries
    with equal key sets); [read_manifest] is the host's retrieval of the
    three values by their fixed names.  The theorems show that the body runs
    without exception, binds exactly what the source says, writes nothing
    else, is idempotent when re-run, refines the abstract manifest, and
    leaves its annotations true in a fresh module. *)

From stdpp Require Import base list sets gmap strings.
From S2P Require Import Prelude PyValue PyExec.
Set Default Goal Selector "!".
Set Warnings "-register-all".

(** ** The source *)

(** Lines 1-5: the module docstring. *)
Definition module_doc : string := "
ComfyUI AI Chat & Prompt Expansion Extension

This extension provides a sidebar chat interface for AI-powered prompt expansion and conversation.
".

(** Line 8: [WEB_DIRECTORY = "./js"]. *)
Definition WEB_DIRECTORY : string := "./js".

(** Line 11: the items of the dict display in [NODE_CLASS_MAPPINGS: dict = {}]. *)
Definition NODE_CLASS_MAPPINGS : list (string * expr) := [].

(** Line 12: the items of the display in [NODE_DISPLAY_NAME_MAPPINGS: dict = {}]. *)
Definition NODE_DISPLAY_NAME_MAPPINGS : list (string * expr) := [].

(** Line 15: the export list. *)
Definition __all__ : list string :=
  ["NODE_CLASS_MAPPINGS"; "NODE_DISPLAY_NAME_MAPPINGS"; "WEB_DIRECTORY"].

(** The statements of the file, one per source statement. *)

(** Lines 1-5: the docstring, an expression statement. *)
Definition stmt_docstring : stmt := SExpr (EStr module_doc).

(** Line 8. *)
Definition stmt_web_directory : stmt := SAssign "WEB_DIRECTORY" (EStr WEB_DIRECTORY).

(** Line 11: an annotated assignment, annotation [dict]. *)
Definition stmt_node_class_mappings : stmt :=
  SAnnAssign "NODE_CLASS_MAPPINGS" (EName "dict") (EDict NODE_CLASS_MAPPINGS).

(** Line 12. *)
Definition stmt_node_display_name_mappings : stmt :=
  SAnnAssign "NODE_DISPLAY_NAME_MAPPINGS" (EName "dict") (EDict NODE_DISPLAY_NAME_MAPPINGS).

(** Line 15: [__all__ = [...]], a list display of string literals. *)
Definition stmt_all : stmt := SAssign "__all__" (EList (map EStr __all__)).

(** The whole file, statement by statement. *)
Definition module_body : list stmt :=
  [ stmt_docstring; stmt_web_directory; stmt_node_class_mappings;
    stmt_node_display_name_mappings; stmt_all ].

(** ** The contract with the host *)

(** The extension manifest of the specification. *)
Record Manifest := {
  web_asset_path : string;
  node_registry : pydict;
  display_name_registry : pydict
}.

(** Well formed: registries are dicts with distinct keys and the same key
    set, and the asset path is a non-empty string. *)
Definition manifest_wf (m : Manifest) : Prop :=
  dict_wf (node_registry m) /\ dict_wf (display_name_registry m) /\
  dict_keys (node_registry m) ⊆ dict_keys (display_name_registry m) /\
  dict_keys (display_name_registry m) ⊆ dict_keys (node_registry m) /\
  web_asset_path m <> "".

#[export] Instance manifest_wf_dec m : Decision (manifest_wf m).
Proof. unfold manifest_wf. apply _. Defined.

(** What this package promises: a well-formed manifest registering no node. *)
Definition manifest_spec (m : Manifest) : Prop :=
  manifest_wf m /\ node_registry m = [] /\ display_name_registry m = [].

#[export] Instance manifest_spec_dec m : Decision (manifest_spec m).
Proof. unfold manifest_spec. apply _. Defined.

(** [getattr(module, x)] where the host expects a [str] or a [dict]. *)
Definition getattr_str (ns : namespace) (x : string) : result pyexc string :=
  match ns !! x with
  | Some (VStr s) => Ok s
  | Some _ => raise (TypeError "expected str")
  | None => raise (AttributeError "module" x)
  end.

Definition getattr_dict (ns : namespace) (x : string) : result pyexc pydict :=
  match ns !! x with
  | Some (VDict d) => Ok d
  | Some _ => raise (TypeError "expected dict")
  | None => raise (AttributeError "module" x)
  end.

(** The host reads the three values by their fixed names. *)
Definition read_manifest (ns : namespace) : result pyexc Manifest :=
  p <- getattr_str ns "WEB_DIRECTORY" ;;
  n <- getattr_dict ns "NODE_CLASS_MAPPINGS" ;;
  d <- getattr_dict ns "NODE_DISPLAY_NAME_MAPPINGS" ;;
  Ok {| web_asset_path := p; node_registry := n; display_name_registry := d |}.

(** ** The effect of the body, in closed form *)

(** The value the name [dict] has for the body: the module's own binding if
    any, else the builtin type. *)
Definition dict_type (ns : namespace) : pyval := default (VType "dict") (ns !! "dict").

(** The annotations dict that [SETUP_ANNOTATIONS] leaves bound. *)
Definition ann_dict (ns : namespace) : pydict :=
  match ns !! "__annotations__" with Some (VDict d) => d | _ => [] end.

Definition doc_ns (o : nat) (ns : namespace) : namespace :=
  if decide (o < 2) then <["__doc__" := VStr module_doc]> ns else ns.

(** The value of a dict display whose items are literals. *)
Definition display_value (items : list (string * expr)) : pyval :=
  match eval_expr ∅ (EDict items) with Ok v => v | Err _ => VNone end.

(** The namespace once lines 1-11 have stored their values, before the
    annotation of line 11 is stored. *)
Definition module_partial (o : nat) (ns : namespace) : namespace :=
  <["NODE_CLASS_MAPPINGS" := display_value NODE_CLASS_MAPPINGS]>
    (<["WEB_DIRECTORY" := VStr WEB_DIRECTORY]> (doc_ns o (setup_annotations ns))).

(** The namespace after the body has run from [ns], store by store. *)
Definition module_result (o : nat) (ns : namespace) : namespace :=
  let t := dict_type ns in
  let ns2 := module_partial o ns in
  let ns3 := <["__annotations__" := VDict (dict_setitem (ann_dict ns) "NODE_CLASS_MAPPINGS" t)]> ns2 in
  let ns4 := <["NODE_DISPLAY_NAME_MAPPINGS" := display_value NODE_DISPLAY_NAME_MAPPINGS]> ns3 in
  <["__all__" := VList (map VStr __all__)]>
    (<["__annotations__" := VDict (dict_setitem (dict_setitem (ann_dict ns) "NODE_CLASS_MAPPINGS" t)
                                    "NODE_DISPLAY_NAME_MAPPINGS" t)]> ns4).

(** ** Lemmas *)

Lemma load_name_dict ns : load_name ns "dict" = Ok (dict_type ns).
Proof. unfold load_name, dict_type. by destruct (ns !! "dict"). Qed.

Lemma doc_ns_lookup_ne o ns y : y <> "__doc__" -> doc_ns o ns !! y = ns !! y.
Proof. intros. unfold doc_ns. case_decide; [by rewrite lookup_insert_ne|done]. Qed.

Lemma setup_annotations_ann ns :
  annotations_ok ns -> setup_annotations ns !! "__annotations__" = Some (VDict (ann_dict ns)).
Proof.
  unfold annotations_ok, setup_annotations, ann_dict.
  destruct (ns !! "__annotations__") as [[]|] eqn:E; rewrite ?E; try done.
  intros _. by rewrite lookup_insert_eq.
Qed.

(** The body, run from a namespace whose [__annotations__] is absent or a
    dict, ends in [module_result]. *)
Lemma exec_module_body o ns :
  annotations_ok ns -> exec_module o module_body ns = Ok (module_result o ns).
Proof.
  intros Ha. unfold exec_module. simpl. fold (doc_ns o (setup_annotations ns)).
  set (ns1 := doc_ns o (setup_annotations ns)).
  assert (H1 : ns1 !! "dict" = ns !! "dict").
  { unfold ns1. rewrite doc_ns_lookup_ne, setup_annotations_lookup_ne; done. }
  assert (H2 : ns1 !! "__annotations__" = Some (VDict (ann_dict ns))).
  { unfold ns1. rewrite doc_ns_lookup_ne by done. by apply setup_annotations_ann. }
  rewrite !load_name_insert_ne by done.
  rewrite (load_name_same ns ns1), load_name_dict by done. simpl.
  rewrite (store_annotation_dict _ _ _ (ann_dict ns)) by (rewrite !lookup_insert_ne; done). simpl.
  rewrite !load_name_insert_ne by done.
  rewrite (load_name_same ns ns1), load_name_dict by done. simpl.
  rewrite (store_annotation_dict _ _ _ (dict_setitem (ann_dict ns) "NODE_CLASS_MAPPINGS" (dict_type ns)))
    by (rewrite lookup_insert_ne, lookup_insert_eq; done).
  reflexivity.
Qed.

(** Any other [__annotations__] value makes the first annotated store fail,
    after line 11 has bound its name. *)
Lemma exec_module_body_bad_annotations o ns :
  ~ annotations_ok ns ->
  exec_module o module_body ns =
  Err (TypeError "object does not support item assignment", module_partial o ns).
Proof.
  unfold annotations_ok. intros Ha. unfold exec_module. simpl. fold (doc_ns o (setup_annotations ns)).
  change (<["NODE_CLASS_MAPPINGS" := _]> (<["WEB_DIRECTORY" := VStr WEB_DIRECTORY]>
            (doc_ns o (setup_annotations ns)))) with (module_partial o ns).
  destruct (ns !! "__annotations__") as [v|] eqn:E; [|done].
  assert (Hp : forall y, y <> "NODE_CLASS_MAPPINGS" -> y <> "WEB_DIRECTORY" -> y <> "__doc__" ->
                 module_partial o ns !! y = ns !! y).
  { intros y ???. unfold module_partial, doc_ns, setup_annotations. rewrite E.
    case_decide; by ns_lookup. }
  rewrite (load_name_same ns), load_name_dict by (apply Hp; done). simpl.
  unfold store_annotation. rewrite (load_name_bound _ _ v) by (rewrite Hp; done).
  by destruct v.
Qed.

Lemma exec_module_body_Ok o ns ns' :
  exec_module o module_body ns = Ok ns' -> annotations_ok ns /\ ns' = module_result o ns.
Proof.
  intros H. destruct (decide (annotations_ok ns)) as [Ha|Ha].
  - rewrite exec_module_body in H by done. by injection H as <-.
  - by rewrite exec_module_body_bad_annotations in H.
Qed.

Lemma module_result_annotations o ns :
  module_result o ns !! "__annotations__" =
  Some (VDict (dict_setitem (dict_setitem (ann_dict ns) "NODE_CLASS_MAPPINGS" (dict_type ns))
                            "NODE_DISPLAY_NAME_MAPPINGS" (dict_type ns))).
Proof. unfold module_result. by ns_lookup. Qed.

Lemma module_result_dict_type o ns : dict_type (module_result o ns) = dict_type ns.
Proof.
  unfold dict_type, module_result, module_partial. ns_lookup.
  by rewrite doc_ns_lookup_ne, setup_annotations_lookup_ne.
Qed.

(** Storing the two annotations again changes nothing. *)
Lemma ann_setitem_twice d t :
  let D := dict_setitem (dict_setitem d "NODE_CLASS_MAPPINGS" t) "NODE_DISPLAY_NAME_MAPPINGS" t in
  dict_setitem (dict_setitem D "NODE_CLASS_MAPPINGS" t) "NODE_DISPLAY_NAME_MAPPINGS" t = D.
Proof.
  intros D. rewrite (dict_setitem_id D "NODE_CLASS_MAPPINGS" t).
  - apply dict_setitem_id, dict_getitem_setitem_eq.
  - unfold D. rewrite dict_getitem_setitem_ne by done. apply dict_getitem_setitem_eq.
Qed.

(** Running the body on its own result gives the same namespace. *)
Lemma module_result_idem o ns :
  module_result o (module_result o ns) = module_result o ns.
Proof.
  assert (Hs : setup_annotations (module_result o ns) = module_result o ns).
  { unfold setup_annotations. by rewrite module_result_annotations. }
  unfold module_result at 1. unfold module_partial at 1. rewrite Hs, module_result_dict_type.
  unfold ann_dict at 1 2. rewrite module_result_annotations, ann_setitem_twice.
  apply map_eq. intros y. unfold module_result, module_partial.
  rewrite !(lookup_insert (M := gmap string)).
  repeat case_decide; try done.
  destruct (decide (y = "__doc__")) as [->|Hy].
  - unfold doc_ns. case_decide; by ns_lookup.
  - rewrite doc_ns_lookup_ne by done. by ns_lookup.
Qed.

Lemma module_result_doc o ns :
  module_result o ns !! "__doc__" =
  if decide (o < 2) then Some (VStr module_doc) else ns !! "__doc__".
Proof.
  unfold module_result, module_partial. ns_lookup. unfold doc_ns.
  case_decide; [by rewrite lookup_insert_eq|]. by rewrite setup_annotations_lookup_ne.
Qed.

(** ** Properties of the body *)

(** C1: run from any namespace whose [__annotations__] is unbound or a dict
    (a fresh module's is unbound), the body of [__init__.py] raises no
    exception and binds [WEB_DIRECTORY] to ["./js"], both mappings to empty
    dicts and [__all__] to the list of the three exported names. *)
Theorem module_body_runs o ns :
  annotations_ok ns ->
  exists ns', exec_module o module_body ns = Ok ns' /\
    ns' !! "WEB_DIRECTORY" = Some (VStr WEB_DIRECTORY) /\
    ns' !! "NODE_CLASS_MAPPINGS" = Some (VDict []) /\
    ns' !! "NODE_DISPLAY_NAME_MAPPINGS" = Some (VDict []) /\
    ns' !! "__all__" = Some (VList (map VStr __all__)).
Proof.
  intros Ha. exists (module_result o ns). rewrite exec_module_body by done.
  unfold module_result, module_partial. split; [done|]. ns_lookup. by split_and!.
Qed.

Lemma module_body_runs_witness :
  annotations_ok ∅ /\
  exists ns', exec_module 0 module_body ∅ = Ok ns' /\
    ns' !! "WEB_DIRECTORY" = Some (VStr WEB_DIRECTORY) /\
    ns' !! "NODE_CLASS_MAPPINGS" = Some (VDict []) /\
    ns' !! "NODE_DISPLAY_NAME_MAPPINGS" = Some (VDict []) /\
    ns' !! "__all__" = Some (VList (map VStr __all__)).
Proof. split; [vm_compute; exact I | apply module_body_runs; vm_compute; exact I]. Defined.

(** C2: whatever namespace the body ran in, the host's retrieval of the
    three values by name succeeds on the result and yields a manifest that
    meets the specification: registries with equal (empty) key sets, no node
    registered, and the asset path equal to the source's [WEB_DIRECTORY]. *)
Theorem module_body_refines_manifest o ns ns' :
  exec_module o module_body ns = Ok ns' ->
  exists m, read_manifest ns' = Ok m /\ manifest_spec m /\ web_asset_path m = WEB_DIRECTORY.
Proof.
  intros H. apply exec_module_body_Ok in H as [_ ->].
  eexists. split; [unfold read_manifest, getattr_str, getattr_dict, module_result, module_partial; ns_lookup; done|].
  split; [decide_closed|done].
Qed.

Lemma module_body_refines_manifest_witness :
  exec_module 0 module_body ∅ = Ok (module_result 0 ∅) /\
  exists m, read_manifest (module_result 0 ∅) = Ok m /\ manifest_spec m /\
            web_asset_path m = WEB_DIRECTORY.
Proof.
  assert (H : exec_module 0 module_body ∅ = Ok (module_result 0 ∅))
    by (apply exec_module_body; vm_compute; exact I).
  split; [exact H|]. exact (module_body_refines_manifest 0 ∅ _ H).
Defined.

(** C7: re-running the body on the namespace it produced (what
    [importlib.reload] does) succeeds and leaves the namespace unchanged: no
    counter or side effect accrues across re-imports. *)
Theorem module_body_idempotent o ns ns' :
  exec_module o module_body ns = Ok ns' -> exec_module o module_body ns' = Ok ns'.
Proof.
  intros H. apply exec_module_body_Ok in H as [_ ->].
  rewrite exec_module_body, module_result_idem; [done|].
  unfold annotations_ok. by rewrite module_result_annotations.
Qed.

Lemma module_body_idempotent_witness :
  exec_module 0 module_body ∅ = Ok (module_result 0 ∅) /\
  exec_module 0 module_body (module_result 0 ∅) = Ok (module_result 0 ∅).
Proof.
  assert (H : exec_module 0 module_body ∅ = Ok (module_result 0 ∅))
    by (apply exec_module_body; vm_compute; exact I).
  split; [exact H|]. exact (module_body_idempotent 0 ∅ _ H).
Defined.

(** C8: the body writes only [__doc__], [__annotations__] and the four names
    it assigns; every other binding of the namespace is left as it was. *)
Theorem module_body_frame o ns ns' y :
  exec_module o module_body ns = Ok ns' ->
  y ∉ ["__doc__"; "__annotations__"; "WEB_DIRECTORY"; "NODE_CLASS_MAPPINGS";
       "NODE_DISPLAY_NAME_MAPPINGS"; "__all__"] ->
  ns' !! y = ns !! y.
Proof.
  intros H Hy. apply (exec_module_frame _ _ _ _ _ H).
  unfold body_writes. simpl. set_solver.
Qed.

Lemma module_body_frame_witness :
  exec_module 0 module_body ({["os" := VStr "posix"]} : namespace) =
    Ok (module_result 0 ({["os" := VStr "posix"]} : namespace)) /\
  ("os" ∉ ["__doc__"; "__annotations__"; "WEB_DIRECTORY"; "NODE_CLASS_MAPPINGS";
           "NODE_DISPLAY_NAME_MAPPINGS"; "__all__"]) /\
  module_result 0 ({["os" := VStr "posix"]} : namespace) !! "os" = ({["os" := VStr "posix"]} : namespace) !! "os".
Proof.
  assert (H : exec_module 0 module_body ({["os" := VStr "posix"]} : namespace) =
              Ok (module_result 0 ({["os" := VStr "posix"]} : namespace)))
    by (apply exec_module_body; vm_compute; exact I).
  assert (Hy : "os" ∉ ["__doc__"; "__annotations__"; "WEB_DIRECTORY"; "NODE_CLASS_MAPPINGS";
                      "NODE_DISPLAY_NAME_MAPPINGS"; "__all__"]) by decide_closed.
  split; [exact H|]. split; [exact Hy|]. exact (module_body_frame 0 _ _ "os" H Hy).
Defined.

(** C9: when [__annotations__] is already bound to something that is not a
    dict, the annotation store of line 11 raises [TypeError] and the body
    stops there: the namespace left behind has [WEB_DIRECTORY] (line 8) and
    [NODE_CLASS_MAPPINGS] (the store of line 11, made before its annotation)
    but neither line 12 nor line 15 has run. *)
Theorem module_body_bad_annotations o ns v :
  ns !! "__annotations__" = Some v -> (forall d, v <> VDict d) ->
  exists ns_p,
    exec_module o module_body ns = Err (TypeError "object does not support item assignment", ns_p) /\
    ns_p !! "WEB_DIRECTORY" = Some (VStr WEB_DIRECTORY) /\
    ns_p !! "NODE_CLASS_MAPPINGS" = Some (VDict []) /\
    ns_p !! "NODE_DISPLAY_NAME_MAPPINGS" = ns !! "NODE_DISPLAY_NAME_MAPPINGS" /\
    ns_p !! "__all__" = ns !! "__all__".
Proof.
  intros Hv Hd. exists (module_partial o ns).
  rewrite exec_module_body_bad_annotations.
  - unfold module_partial, doc_ns. split; [done|]. case_decide; ns_lookup;
      rewrite !setup_annotations_lookup_ne by done; by split_and!.
  - unfold annotations_ok. rewrite Hv. destruct v as [| | |d|]; try tauto. by destruct (Hd d).
Qed.

Lemma module_body_bad_annotations_witness :
  ({["__annotations__" := VStr "x"]} : namespace) !! "__annotations__" = Some (VStr "x") /\
  (forall d, VStr "x" <> VDict d) /\
  exists ns_p,
    exec_module 0 module_body {["__annotations__" := VStr "x"]} =
      Err (TypeError "object does not support item assignment", ns_p) /\
    ns_p !! "WEB_DIRECTORY" = Some (VStr WEB_DIRECTORY) /\
    ns_p !! "NODE_CLASS_MAPPINGS" = Some (VDict []) /\
    ns_p !! "NODE_DISPLAY_NAME_MAPPINGS" =
      ({["__annotations__" := VStr "x"]} : namespace) !! "NODE_DISPLAY_NAME_MAPPINGS" /\
    ns_p !! "__all__" = ({["__annotations__" := VStr "x"]} : namespace) !! "__all__".
Proof.
  assert (H1 : ({["__annotations__" := VStr "x"]} : namespace) !! "__annotations__" = Some (VStr "x"))
    by reflexivity.
  assert (H2 : forall d, VStr "x" <> VDict d) by discriminate.
  split; [exact H1|]. split; [exact H2|]. exact (module_body_bad_annotations 0 _ _ H1 H2).
Defined.

(** C10: the docstring of lines 1-5 becomes [__doc__], except under [-OO]
    (optimisation level 2 or more), where [__doc__] keeps the value the
    module had. *)
Theorem module_body_doc o ns ns' :
  exec_module o module_body ns = Ok ns' ->
  ns' !! "__doc__" = if decide (o < 2) then Some (VStr module_doc) else ns !! "__doc__".
Proof.
  intros H. apply exec_module_body_Ok in H as [_ ->]. apply module_result_doc.
Qed.

Lemma module_body_doc_witness :
  exec_module 2 module_body ∅ = Ok (module_result 2 ∅) /\
  module_result 2 ∅ !! "__doc__" = if decide (2 < 2) then Some (VStr module_doc) else (∅ : namespace) !! "__doc__".
Proof.
  assert (H : exec_module 2 module_body ∅ = Ok (module_result 2 ∅))
    by (apply exec_module_body; vm_compute; exact I).
  split; [exact H|]. exact (module_body_doc 2 ∅ _ H).
Defined.

(** C11: the two annotations of lines 11-12 are stored, in source order, in
    the [__annotations__] dict the namespace had (or a fresh one), each with
    the value the name [dict] has there (the builtin type unless shadowed). *)
Theorem module_body_annotations o ns ns' :
  exec_module o module_body ns = Ok ns' ->
  ns' !! "__annotations__" =
  Some (VDict (dict_setitem (dict_setitem (ann_dict ns) "NODE_CLASS_MAPPINGS" (dict_type ns))
                            "NODE_DISPLAY_NAME_MAPPINGS" (dict_type ns))).
Proof. intros H. apply exec_module_body_Ok in H as [_ ->]. apply module_result_annotations. Qed.

Lemma module_body_annotations_witness :
  exec_module 0 module_body ∅ = Ok (module_result 0 ∅) /\
  module_result 0 ∅ !! "__annotations__" =
  Some (VDict (dict_setitem (dict_setitem (ann_dict ∅) "NODE_CLASS_MAPPINGS" (dict_type ∅))
                            "NODE_DISPLAY_NAME_MAPPINGS" (dict_type ∅))).
Proof.
  assert (H : exec_module 0 module_body ∅ = Ok (module_result 0 ∅))
    by (apply exec_module_body; vm_compute; exact I).
  split; [exact H|]. exact (module_body_annotations 0 ∅ _ H).
Defined.

(** C17: run in a fresh module namespace (no [__annotations__] yet, [dict]
    the builtin type), the body leaves a module whose annotations hold:
    each of [NODE_CLASS_MAPPINGS] and [NODE_DISPLAY_NAME_MAPPINGS] is
    annotated [dict] and bound to a dict. *)
Theorem module_body_well_typed o ns ns' :
  ns !! "dict" = None -> ns !! "__annotations__" = None ->
  exec_module o module_body ns = Ok ns' -> annotations_respected ns' = true.
Proof.
  intros Hd Ha H. apply exec_module_body_Ok in H as [_ ->].
  unfold annotations_respected. rewrite module_result_annotations.
  unfold ann_dict, dict_type. rewrite Ha, Hd. simpl.
  unfold module_result, module_partial. ns_lookup. reflexivity.
Qed.

Lemma module_body_well_typed_witness :
  (∅ : namespace) !! "dict" = None /\ (∅ : namespace) !! "__annotations__" = None /\
  exec_module 0 module_body ∅ = Ok (module_result 0 ∅) /\
  annotations_respected (module_result 0 ∅) = true.
Proof.
  assert (Hd : (∅ : namespace) !! "dict" = None) by reflexivity.
  assert (Ha : (∅ : namespace) !! "__annotations__" = None) by reflexivity.
  assert (H : exec_module 0 module_body ∅ = Ok (module_result 0 ∅))
    by (apply exec_module_body; vm_compute; exact I).
  split; [exact Hd|]. split; [exact Ha|]. split; [exact H|].
  exact (module_body_well_typed 0 ∅ _ Hd Ha H).
Defined.
