(* ===== verification/Import.v ===== *)
(** * The import system around the package

    How the host gets at the package: [importlib] finds a spec for the
    package's [__init__.py], creates a module, registers it in
    [sys.modules] before running the body, and unregisters it when the body
    raises ([_bootstrap._load_unlocked]); a later import of the same name
    returns the module found in [sys.modules] without running anything
    ([_find_and_load]).  [importlib.reload] re-runs the body in the existing
    module's namespace.  [from pkg import *] binds, one by one, the names of
    the module's [__all__] (or, without [__all__], its public names) in the
    importing namespace, and stops at the first name the module does not
    have ([import_all_from] in [ceval.c]).

    Module objects are values here: the identity of a module is its entry
    in [sys.modules], and "the same module" means the entry left there. *)

From Stdlib Require Import Ascii String.
From stdpp Require Import base list sets gmap strings.
From S2P Require Import Prelude PyValue PyExec ChatAssistant.
Set Default Goal Selector "!".
Set Warnings "-register-all".

(** ** Modules, specs and [sys.modules] *)

Record module_obj := mk_module {
  mod_name : string;
  mod_dict : namespace
}.

#[export] Instance module_obj_eq_dec : EqDecision module_obj.
Proof. solve_decision. Defined.

Abbreviation sys_modules := (gmap string module_obj).

(** A [ModuleSpec]: the name, the source file, the package directories
    ([submodule_search_locations], [Some] for a package) and the body of
    the source file. *)
Record module_spec := {
  spec_name : string;
  spec_origin : string;
  spec_search_locations : option (list string);
  spec_body : list stmt
}.

(** A finder maps a module name to its spec. *)
Abbreviation finder := (string -> option module_spec).

(** [_init_module_attrs]: the attributes importlib sets from the spec
    ([__loader__], [__spec__] and [__cached__] are opaque objects, left out). *)
Definition init_module_attrs (spec : module_spec) (ns : namespace) : namespace :=
  let ns := <["__file__" := VStr (spec_origin spec)]> (<["__name__" := VStr (spec_name spec)]> ns) in
  match spec_search_locations spec with
  | Some locs => <["__path__" := VList (map VStr locs)]> (<["__package__" := VStr (spec_name spec)]> ns)
  | None => ns
  end.

(** [module_from_spec]: [ModuleType.__new__] binds [__doc__] to [None]. *)
Definition new_module_ns (spec : module_spec) : namespace :=
  init_module_attrs spec {["__doc__" := VNone]}.

(** [importlib.import_module(name)]: the result and the new [sys.modules]. *)
Definition import_module (o : nat) (find : finder) (mods : sys_modules) (name : string)
    : result pyexc module_obj * sys_modules :=
  match mods !! name with
  | Some m => (Ok m, mods)
  | None =>
      match find name with
      | None => (Err (ModuleNotFoundError name), mods)
      | Some spec =>
          let m0 := mk_module name (new_module_ns spec) in
          let mods1 := <[name := m0]> mods in
          match exec_module o (spec_body spec) (mod_dict m0) with
          | Ok ns => let m := mk_module name ns in (Ok m, <[name := m]> mods1)
          | Err (e, _) => (Err e, delete name mods1)
          end
      end
  end.

(** [importlib.reload(m)]: the module must be the one in [sys.modules]; the
    body runs again in its namespace, whose stores stay even when it raises. *)
Definition reload_module (o : nat) (find : finder) (mods : sys_modules) (m : module_obj)
    : result pyexc module_obj * sys_modules :=
  let name := mod_name m in
  if decide (mods !! name = Some m) then
    match find name with
    | None => (Err (ModuleNotFoundError name), mods)
    | Some spec =>
        match exec_module o (spec_body spec) (init_module_attrs spec (mod_dict m)) with
        | Ok ns => let m' := mk_module name ns in (Ok m', <[name := m']> mods)
        | Err (e, ns_p) => (Err e, <[name := mk_module name ns_p]> mods)
        end
    end
  else (Err (ImportError "module not in sys.modules"), mods).

(** A name starting with an underscore is private to its module. *)
Definition is_private (n : string) : bool :=
  match n with String "_"%char _ => true | _ => false end.

(** Bind the listed names of [src] in [dst], one by one. *)
Fixpoint star_bind (modname : string) (src : namespace) (skip_private : bool)
    (names : list pyval) (dst : namespace) : result (pyexc * namespace) namespace :=
  match names with
  | [] => Ok dst
  | VStr n :: rest =>
      if skip_private && is_private n then star_bind modname src skip_private rest dst
      else match src !! n with
           | Some v => star_bind modname src skip_private rest (map_set dst n v)
           | None => Err (AttributeError modname n, dst)
           end
  | _ :: _ => Err (TypeError "Item in __all__ must be str", dst)
  end.

(** [from m import *] into the namespace [dst]: [__all__] is read as a
    sequence (a list of names, or a string as the sequence of its
    characters); without it, every public name of the module is bound. *)
Definition star_import (m : module_obj) (dst : namespace) : result (pyexc * namespace) namespace :=
  match mod_dict m !! "__all__" with
  | Some (VList names) => star_bind (mod_name m) (mod_dict m) false names dst
  | Some (VStr s) =>
      star_bind (mod_name m) (mod_dict m) false
        (map (fun c => VStr (String c EmptyString)) (list_ascii_of_string s)) dst
  | Some _ => Err (TypeError "__all__ is not a sequence", dst)
  | None => star_bind (mod_name m) (mod_dict m) true (map (VStr ∘ fst) (map_to_list (mod_dict m))) dst
  end.

(** The spec importlib builds for the package directory [dir] when the host
    loads it under the name [name]. *)
Definition chat_spec (name dir : string) : module_spec := {|
  spec_name := name;
  spec_origin := dir +:+ "/__init__.py";
  spec_search_locations := Some [dir];
  spec_body := module_body
|}.

(** ** Lemmas *)

(** importlib's attributes leave [__annotations__] alone. *)
Lemma init_module_attrs_annotations spec ns :
  init_module_attrs spec ns !! "__annotations__" = ns !! "__annotations__".
Proof. unfold init_module_attrs. by destruct (spec_search_locations spec); ns_lookup. Qed.

Lemma new_module_ns_annotations spec : new_module_ns spec !! "__annotations__" = None.
Proof.
  unfold new_module_ns. rewrite init_module_attrs_annotations. by rewrite lookup_singleton_ne.
Qed.

Lemma new_module_ns_ok spec : annotations_ok (new_module_ns spec).
Proof. unfold annotations_ok. by rewrite new_module_ns_annotations. Qed.

(** The first import of the package under a fresh name runs the body in a
    new module and registers the result. *)
Lemma import_chat_fresh o find mods name dir :
  mods !! name = None -> find name = Some (chat_spec name dir) ->
  import_module o find mods name =
  (Ok (mk_module name (module_result o (new_module_ns (chat_spec name dir)))),
   <[name := mk_module name (module_result o (new_module_ns (chat_spec name dir)))]> mods).
Proof.
  intros Hm Hf. unfold import_module. rewrite Hm, Hf. simpl.
  rewrite exec_module_body by apply new_module_ns_ok. by rewrite insert_insert_eq.
Qed.

(** [importlib] sets again the attributes a module already has. *)
Lemma init_module_attrs_id spec ns :
  ns !! "__name__" = Some (VStr (spec_name spec)) ->
  ns !! "__file__" = Some (VStr (spec_origin spec)) ->
  (forall locs, spec_search_locations spec = Some locs ->
     ns !! "__package__" = Some (VStr (spec_name spec)) /\
     ns !! "__path__" = Some (VList (map VStr locs))) ->
  init_module_attrs spec ns = ns.
Proof.
  intros Hn Hf Hp. unfold init_module_attrs.
  rewrite (insert_id ns "__name__"), (insert_id ns "__file__") by done.
  destruct (spec_search_locations spec) as [locs|]; [|done].
  destruct (Hp locs eq_refl) as [H1 H2].
  rewrite (insert_id ns "__package__") by done. by rewrite (insert_id ns "__path__").
Qed.

(** The names the body does not write keep the values importlib gave them. *)
Lemma module_result_attr o spec y :
  y ∉ ["__doc__"; "__annotations__"; "WEB_DIRECTORY"; "NODE_CLASS_MAPPINGS";
       "NODE_DISPLAY_NAME_MAPPINGS"; "__all__"] ->
  module_result o (new_module_ns spec) !! y = new_module_ns spec !! y.
Proof.
  intros Hy. apply (exec_module_frame o module_body _ _ y).
  - apply exec_module_body, new_module_ns_ok.
  - unfold body_writes. simpl. set_solver.
Qed.

Lemma new_chat_attrs name dir :
  let ns := new_module_ns (chat_spec name dir) in
  ns !! "__name__" = Some (VStr name) /\ ns !! "__file__" = Some (VStr (dir +:+ "/__init__.py")) /\
  ns !! "__package__" = Some (VStr name) /\ ns !! "__path__" = Some (VList [VStr dir]) /\
  ns !! "__doc__" = Some VNone /\ ns !! "dict" = None.
Proof. unfold new_module_ns, init_module_attrs. simpl. ns_lookup. by rewrite lookup_singleton_eq, lookup_singleton_ne. Qed.

(** The keys of [map_to_list m] are the names bound in [m]. *)
Lemma map_to_list_keys (m : namespace) y : y ∈ map fst (map_to_list m) <-> is_Some (m !! y).
Proof.
  rewrite list_elem_of_In, in_map_iff. split.
  - intros [[k v] [<- Hin]]. apply list_elem_of_In, elem_of_map_to_list in Hin. by exists v.
  - intros [v Hv]. exists (y, v). split; [done|]. by apply list_elem_of_In, elem_of_map_to_list.
Qed.

(** A module created by importlib binds only private names. *)
Lemma new_module_ns_public spec y : is_private y = false -> new_module_ns spec !! y = None.
Proof.
  intros Hy. unfold new_module_ns, init_module_attrs.
  destruct (spec_search_locations spec);
    rewrite ?lookup_insert_ne, lookup_singleton_ne; first [done | by intros <-].
Qed.

(** Binding a list of names that the module has (private ones excepted when
    they are skipped) succeeds, and each name then holds the module's value
    if it was bound, the importing namespace's value otherwise. *)
Lemma star_bind_spec modname src sp ns dst :
  (forall n, n ∈ ns -> sp && is_private n = false -> is_Some (src !! n)) ->
  exists dst', star_bind modname src sp (map VStr ns) dst = Ok dst' /\
    forall y, dst' !! y = if bool_decide (y ∈ ns) && negb (sp && is_private y) then src !! y else dst !! y.
Proof.
  revert dst. induction ns as [|n ns IH]; intros dst Hns; cbn [map star_bind].
  { eexists. split; [done|]. intros y. by rewrite bool_decide_false by set_solver. }
  assert (Hns' : forall n', n' ∈ ns -> sp && is_private n' = false -> is_Some (src !! n'))
    by (intros; apply Hns; set_solver).
  destruct (sp && is_private n) eqn:Hp.
  - destruct (IH dst Hns') as (dst' & -> & Hl).
    eexists. split; [done|]. intros y. rewrite Hl.
    destruct (decide (y = n)) as [->|Hy]; [by rewrite Hp, andb_false_r; case_bool_decide|].
    by rewrite (bool_decide_ext (y ∈ n :: ns) (y ∈ ns)) by (rewrite elem_of_cons; naive_solver).
  - destruct (Hns n) as [v Hv]; [set_solver|done|]. rewrite Hv.
    change (map_set dst n v) with (<[n := v]> dst).
    destruct (IH (<[n := v]> dst) Hns') as (dst' & -> & Hl).
    eexists. split; [done|]. intros y. rewrite Hl.
    destruct (decide (y = n)) as [->|Hy].
    + rewrite Hp, (bool_decide_true (n ∈ n :: ns)) by constructor. simpl.
      case_bool_decide; [done|]. by rewrite lookup_insert_eq.
    + rewrite lookup_insert_ne by done.
      by rewrite (bool_decide_ext (y ∈ n :: ns) (y ∈ ns)) by (rewrite elem_of_cons; naive_solver).
Qed.

(** ** Properties *)

(** C3: [from pkg import *] on the package, once its body has run, raises
    nothing: every name of [__all__] is bound in the module.  It binds
    [WEB_DIRECTORY] and the two (empty) mappings in the importing namespace
    and leaves every name outside [__all__] as it was. *)
Theorem star_import_exports o name ns ns' dst :
  exec_module o module_body ns = Ok ns' ->
  exists dst', star_import (mk_module name ns') dst = Ok dst' /\
    dst' !! "WEB_DIRECTORY" = Some (VStr WEB_DIRECTORY) /\
    dst' !! "NODE_CLASS_MAPPINGS" = Some (VDict []) /\
    dst' !! "NODE_DISPLAY_NAME_MAPPINGS" = Some (VDict []) /\
    forall y, y ∉ __all__ -> dst' !! y = dst !! y.
Proof.
  intros H. apply exec_module_body_Ok in H as [_ ->].
  unfold star_import, module_result, module_partial. simpl. ns_lookup. simpl.
  ns_lookup. simpl. ns_lookup. simpl. ns_lookup. simpl.
  eexists. split; [reflexivity|]. ns_lookup. split_and!; [done..|].
  intros y Hy. rewrite !lookup_insert_ne; [done|set_solver..].
Qed.

Lemma star_import_exports_witness :
  exec_module 0 module_body ∅ = Ok (module_result 0 ∅) /\
  exists dst', star_import (mk_module "chat" (module_result 0 ∅)) ∅ = Ok dst' /\
    dst' !! "WEB_DIRECTORY" = Some (VStr WEB_DIRECTORY) /\
    dst' !! "NODE_CLASS_MAPPINGS" = Some (VDict []) /\
    dst' !! "NODE_DISPLAY_NAME_MAPPINGS" = Some (VDict []) /\
    forall y, y ∉ __all__ -> dst' !! y = (∅ : namespace) !! y.
Proof.
  assert (H : exec_module 0 module_body ∅ = Ok (module_result 0 ∅))
    by (apply exec_module_body; vm_compute; exact I).
  split; [exact H|]. exact (star_import_exports 0 "chat" ∅ _ ∅ H).
Defined.

(** C12: the first import of the package creates a module whose namespace
    has, besides the exported names, the attributes importlib sets
    ([__name__], [__path__] = [[dir]]), the docstring as [__doc__] (or
    [None] under [-OO]) and, in source order, the annotations
    [{"NODE_CLASS_MAPPINGS": dict, "NODE_DISPLAY_NAME_MAPPINGS": dict}]. *)
Theorem import_fresh_module o find mods name dir :
  mods !! name = None -> find name = Some (chat_spec name dir) ->
  exists m, import_module o find mods name = (Ok m, <[name := m]> mods) /\
    mod_dict m !! "__name__" = Some (VStr name) /\
    mod_dict m !! "__path__" = Some (VList [VStr dir]) /\
    mod_dict m !! "__doc__" = (if decide (o < 2) then Some (VStr module_doc) else Some VNone) /\
    mod_dict m !! "__annotations__" =
      Some (VDict [("NODE_CLASS_MAPPINGS", VType "dict"); ("NODE_DISPLAY_NAME_MAPPINGS", VType "dict")]).
Proof.
  intros Hm Hf. eexists. split; [by apply import_chat_fresh|]. simpl.
  destruct (new_chat_attrs name dir) as (Hn & _ & _ & Hp & Hd & Ht).
  rewrite !module_result_attr by set_solver. split_and!; [done|done| |].
  - by rewrite module_result_doc, Hd.
  - rewrite module_result_annotations. unfold ann_dict, dict_type.
    by rewrite new_module_ns_annotations, Ht.
Qed.

Lemma import_fresh_module_witness :
  (∅ : sys_modules) !! "chat" = None /\
  (fun n => if decide (n = "chat") then Some (chat_spec "chat" "/nodes/chat") else None) "chat" =
    Some (chat_spec "chat" "/nodes/chat") /\
  exists m, import_module 0 (fun n => if decide (n = "chat") then Some (chat_spec "chat" "/nodes/chat") else None)
              ∅ "chat" = (Ok m, <["chat" := m]> ∅) /\
    mod_dict m !! "__name__" = Some (VStr "chat") /\
    mod_dict m !! "__path__" = Some (VList [VStr "/nodes/chat"]) /\
    mod_dict m !! "__doc__" = (if decide (0 < 2) then Some (VStr module_doc) else Some VNone) /\
    mod_dict m !! "__annotations__" =
      Some (VDict [("NODE_CLASS_MAPPINGS", VType "dict"); ("NODE_DISPLAY_NAME_MAPPINGS", VType "dict")]).
Proof.
  assert (Hm : (∅ : sys_modules) !! "chat" = None) by reflexivity.
  assert (Hf : (fun n => if decide (n = "chat") then Some (chat_spec "chat" "/nodes/chat") else None) "chat" =
               Some (chat_spec "chat" "/nodes/chat")) by reflexivity.
  split; [exact Hm|]. split; [exact Hf|]. exact (import_fresh_module 0 _ ∅ "chat" "/nodes/chat" Hm Hf).
Defined.

(** C13: reloading the freshly imported package ([importlib.reload]) runs
    the body again in the module's namespace, returns the same module and
    leaves [sys.modules] as it was. *)
Theorem reload_after_import o find mods name dir :
  mods !! name = None -> find name = Some (chat_spec name dir) ->
  exists m, import_module o find mods name = (Ok m, <[name := m]> mods) /\
    reload_module o find (<[name := m]> mods) m = (Ok m, <[name := m]> mods).
Proof.
  intros Hm Hf. eexists. split; [by apply import_chat_fresh|].
  unfold reload_module. simpl. rewrite decide_True by apply lookup_insert_eq. rewrite Hf. simpl.
  destruct (new_chat_attrs name dir) as (Hn & Hfile & Hpkg & Hp & _).
  rewrite init_module_attrs_id; simpl.
  - rewrite exec_module_body, module_result_idem; [by rewrite insert_insert_eq|].
    unfold annotations_ok. by rewrite module_result_annotations.
  - by rewrite module_result_attr by set_solver.
  - by rewrite module_result_attr by set_solver.
  - intros locs [= <-]. by rewrite !module_result_attr by set_solver.
Qed.

Lemma reload_after_import_witness :
  (∅ : sys_modules) !! "chat" = None /\
  (fun n => if decide (n = "chat") then Some (chat_spec "chat" "/nodes/chat") else None) "chat" =
    Some (chat_spec "chat" "/nodes/chat") /\
  exists m, import_module 0 (fun n => if decide (n = "chat") then Some (chat_spec "chat" "/nodes/chat") else None)
              ∅ "chat" = (Ok m, <["chat" := m]> ∅) /\
    reload_module 0 (fun n => if decide (n = "chat") then Some (chat_spec "chat" "/nodes/chat") else None)
      (<["chat" := m]> ∅) m = (Ok m, <["chat" := m]> ∅).
Proof.
  assert (Hm : (∅ : sys_modules) !! "chat" = None) by reflexivity.
  assert (Hf : (fun n => if decide (n = "chat") then Some (chat_spec "chat" "/nodes/chat") else None) "chat" =
               Some (chat_spec "chat" "/nodes/chat")) by reflexivity.
  split; [exact Hm|]. split; [exact Hf|]. exact (reload_after_import 0 _ ∅ "chat" "/nodes/chat" Hm Hf).
Defined.

(** The public names of the imported package are exactly those of [__all__]. *)
Lemma module_result_public o spec y :
  y ∈ __all__ <-> is_Some (module_result o (new_module_ns spec) !! y) /\ is_private y = false.
Proof.
  split.
  - unfold __all__. rewrite !elem_of_cons, elem_of_nil.
    intros [->|[->|[->|[]]]]; (split; [|done]);
      unfold module_result, module_partial; ns_lookup; eauto.
  - intros [Hs Hp]. destruct (decide (y ∈ ["__doc__"; "__annotations__"; "WEB_DIRECTORY";
      "NODE_CLASS_MAPPINGS"; "NODE_DISPLAY_NAME_MAPPINGS"; "__all__"])) as [Hw|Hw].
    + rewrite !elem_of_cons, elem_of_nil in Hw.
      unfold __all__. rewrite !elem_of_cons. naive_solver.
    + rewrite module_result_attr, new_module_ns_public in Hs by done. by destruct Hs.
Qed.

(** C14: [__all__] lists exactly the public names of the package module:
    [from pkg import *] binds the same names to the same values as it would
    if the module had no [__all__] and exported its public names. *)
Theorem star_import_all_public o name dir dst :
  star_import (mk_module name (module_result o (new_module_ns (chat_spec name dir)))) dst =
  star_import (mk_module name (delete "__all__" (module_result o (new_module_ns (chat_spec name dir))))) dst.
Proof.
  set (src := module_result o (new_module_ns (chat_spec name dir))).
  unfold star_import. simpl. rewrite lookup_delete_eq.
  assert (Ha : src !! "__all__" = Some (VList (map VStr __all__))) by (unfold src, module_result; ns_lookup; done).
  rewrite Ha. change (map (VStr ∘ fst) ?l) with (map (fun x => VStr (fst x)) l). rewrite <- (map_map fst VStr).
  destruct (star_bind_spec name src false __all__ dst) as (d1 & -> & H1).
  { intros n Hn _. by apply (module_result_public o (chat_spec name dir)). }
  destruct (star_bind_spec name (delete "__all__" src) true (map fst (map_to_list (delete "__all__" src))) dst)
    as (d2 & -> & H2).
  { intros n Hn _. by apply map_to_list_keys. }
  f_equal. apply map_eq. intros y. rewrite H1, H2. simpl.
  destruct (decide (y = "__all__")) as [->|Hne]; [by rewrite andb_false_r|].
  pose proof (module_result_public o (chat_spec name dir) y) as Hiff. fold src in Hiff.
  rewrite lookup_delete_ne by congruence.
  rewrite (bool_decide_ext (y ∈ map fst _) (is_Some (src !! y)))
    by (rewrite map_to_list_keys, lookup_delete_ne; [done|congruence]).
  destruct (is_private y) eqn:Hp; cbn [andb negb]; rewrite ?andb_true_r, ?andb_false_r.
  - rewrite bool_decide_false; [done|]. rewrite Hiff. by intros [_ ?].
  - by rewrite (bool_decide_ext (y ∈ __all__) (is_Some (src !! y))) by (rewrite Hiff; tauto).
Qed.

(** C15: reloading the package when its module's [__annotations__] has
    been rebound to something that is not a dict raises [TypeError] at the
    first annotated assignment; [sys.modules] then holds the module with the
    stores the body made before the exception ([__doc__],
    [WEB_DIRECTORY], [NODE_CLASS_MAPPINGS] rebound) and the rest of its old
    namespace. *)
Theorem reload_bad_annotations o find mods name dir m :
  find name = Some (chat_spec name dir) -> mods !! name = Some m -> mod_name m = name ->
  ~ annotations_ok (init_module_attrs (chat_spec name dir) (mod_dict m)) ->
  reload_module o find mods m =
  (Err (TypeError "object does not support item assignment"),
   <[name := mk_module name (module_partial o (init_module_attrs (chat_spec name dir) (mod_dict m)))]> mods).
Proof.
  intros Hf Hm Hn Ha. unfold reload_module. rewrite Hn, decide_True by exact Hm. rewrite Hf.
  change (spec_body (chat_spec name dir)) with module_body.
  by rewrite exec_module_body_bad_annotations.
Qed.

Lemma reload_bad_annotations_witness :
  let m := mk_module "chat" {["__annotations__" := VStr "x"]} in
  (fun n => if decide (n = "chat") then Some (chat_spec "chat" "/nodes/chat") else None) "chat" =
    Some (chat_spec "chat" "/nodes/chat") /\
  ({["chat" := m]} : sys_modules) !! "chat" = Some m /\ mod_name m = "chat" /\
  ~ annotations_ok (init_module_attrs (chat_spec "chat" "/nodes/chat") (mod_dict m)) /\
  reload_module 0 (fun n => if decide (n = "chat") then Some (chat_spec "chat" "/nodes/chat") else None)
    {["chat" := m]} m =
  (Err (TypeError "object does not support item assignment"),
   <["chat" := mk_module "chat" (module_partial 0 (init_module_attrs (chat_spec "chat" "/nodes/chat") (mod_dict m)))]>
     {["chat" := m]}).
Proof.
  intros m.
  assert (Hf : (fun n => if decide (n = "chat") then Some (chat_spec "chat" "/nodes/chat") else None) "chat" =
               Some (chat_spec "chat" "/nodes/chat")) by reflexivity.
  assert (Hm : ({["chat" := m]} : sys_modules) !! "chat" = Some m) by reflexivity.
  assert (Hn : mod_name m = "chat") by reflexivity.
  assert (Ha : ~ annotations_ok (init_module_attrs (chat_spec "chat" "/nodes/chat") (mod_dict m)))
    by decide_closed.
  split; [exact Hf|]. split; [exact Hm|]. split; [exact Hn|]. split; [exact Ha|].
  exact (reload_bad_annotations 0 _ _ "chat" "/nodes/chat" m Hf Hm Hn Ha).
Defined.
