(* ===== verification/HostPaths.v ===== *)
(** * Resolving the web directory

    The host serves the package's front-end files from the directory that
    [WEB_DIRECTORY] names relative to the package directory: it joins the
    two ([os.path.join], where an absolute second argument replaces the
    first) and normalises the result ([os.path.normpath]: empty and [.]
    components vanish, [..] removes the component before it, and at the root
    of an absolute path it vanishes too).  Paths are POSIX strings, split on
    [/] as [str.split('/')] does and joined as ['/'.join] does.  The file
    proves that [WEB_DIRECTORY] resolves to the [js] subdirectory of a clean
    absolute package directory, and that for any package directory it
    resolves exactly as the bare name [js]. *)

From Stdlib Require Import Ascii String.
From stdpp Require Import base list sets strings.
From S2P Require Import Prelude PyValue PyExec ChatAssistant.
Set Default Goal Selector "!".

(** ** Strings as paths *)

(** The path separator test. *)
Definition is_slash (c : ascii) : bool := Ascii.eqb c "/"%char.
Arguments is_slash : simpl never.

(** [s.split('/')]: the components between slashes, empty ones included. *)
Fixpoint split_slash (s : string) : list string :=
  match s with
  | EmptyString => [""]
  | String c rest =>
      let segs := split_slash rest in
      if is_slash c then "" :: segs
      else match segs with
           | seg :: tl => String c seg :: tl
           | [] => [String c EmptyString]
           end
  end.

(** ['/'.join(segs)]. *)
Fixpoint join_slash (segs : list string) : string :=
  match segs with
  | [] => ""
  | [s] => s
  | s :: tl => s +:+ "/" +:+ join_slash tl
  end.

Definition starts_with_slash (s : string) : bool :=
  match s with String c _ => is_slash c | EmptyString => false end.

Definition ends_with_slash (s : string) : bool :=
  match last (list_ascii_of_string s) with Some c => is_slash c | None => false end.

(** [os.path.join(a, b)] for two components. *)
Definition path_join (a b : string) : string :=
  if starts_with_slash b then b
  else if (a =? "")%string || ends_with_slash a then a +:+ b
  else a +:+ "/" +:+ b.

(** The number of leading slashes [normpath] keeps: two exactly when the
    path starts with two and not three, else one for an absolute path. *)
Definition initial_slashes (p : string) : nat :=
  match p with
  | String c1 (String c2 rest) =>
      if is_slash c1 then
        if is_slash c2 && negb (starts_with_slash rest) then 2 else 1
      else 0
  | String c1 EmptyString => if is_slash c1 then 1 else 0
  | EmptyString => 0
  end.

(** One component of the loop of [normpath]; [acc] holds the kept
    components, last first. *)
Definition norm_step (initial : nat) (acc : list string) (comp : string) : list string :=
  if (comp =? "")%string || (comp =? ".")%string then acc
  else if negb (comp =? "..")%string
          || ((initial =? 0) && bool_decide (acc = []))
          || bool_decide (head acc = Some "..") then comp :: acc
  else tail acc.

(** The components [normpath] keeps, in order. *)
Definition norm_comps (p : string) : list string :=
  rev (fold_left (norm_step (initial_slashes p)) (split_slash p) []).

(** [os.path.normpath(p)]. *)
Definition normpath (p : string) : string :=
  let path := String.concat "" (repeat "/" (initial_slashes p)) +:+ join_slash (norm_comps p) in
  if (path =? "")%string then "." else path.

(** The directory the host serves for a package in [moddir] whose
    [WEB_DIRECTORY] is [web]: [os.path.abspath(os.path.join(moddir, web))],
    which is [normpath] of the join for an absolute [moddir]. *)
Definition web_dir (moddir web : string) : string := normpath (path_join moddir web).

(** A component a normalised absolute path keeps: non-empty, not [.] or
    [..], without a slash. *)
Definition clean_segment (s : string) : bool :=
  negb (s =? "")%string && negb (s =? ".")%string && negb (s =? "..")%string &&
  negb (existsb is_slash (list_ascii_of_string s)).

(** The absolute path whose components are [segs]. *)
Definition abs_path (segs : list string) : string := "/" +:+ join_slash segs.

(** ** Lemmas *)

Lemma is_slash_true c : is_slash c = true <-> c = "/"%char.
Proof. apply Ascii.eqb_eq. Qed.

Lemma split_slash_nonempty s : split_slash s <> [].
Proof.
  induction s as [|c s IH]; simpl; [done|].
  destruct (is_slash c); [done|]. by destruct (split_slash s).
Qed.

Lemma join_slash_cons s segs : segs <> [] -> join_slash (s :: segs) = s +:+ "/" +:+ join_slash segs.
Proof. by destruct segs. Qed.

Lemma join_slash_String c seg tl : join_slash (String c seg :: tl) = String c (join_slash (seg :: tl)).
Proof. by destruct tl. Qed.

(** Printing the components of any string gives the string back. *)
Lemma join_split_slash s : join_slash (split_slash s) = s.
Proof.
  induction s as [|c s IH]; [done|]. cbn [split_slash].
  destruct (is_slash c) eqn:Ec.
  - apply is_slash_true in Ec as ->.
    rewrite join_slash_cons by apply split_slash_nonempty. simpl. by rewrite IH.
  - destruct (split_slash s) as [|seg tl] eqn:E; [by destruct (split_slash_nonempty s)|].
    rewrite join_slash_String. by rewrite IH.
Qed.

Lemma split_slash_app_slash a b :
  split_slash (a +:+ "/" +:+ b) = split_slash a ++ split_slash b.
Proof.
  induction a as [|c a IH]; simpl; [done|]. rewrite IH.
  destruct (is_slash c); [done|].
  pose proof (split_slash_nonempty a). by destruct (split_slash a).
Qed.

Lemma no_slash_split s :
  existsb is_slash (list_ascii_of_string s) = false -> split_slash s = [s].
Proof.
  induction s as [|c s IH]; simpl; [done|]. intros [Hc Hs]%orb_false_iff.
  rewrite IH by done. by rewrite Hc.
Qed.

(** Parsing the printed form of slash-free components gives them back. *)
Lemma split_join_slash segs :
  segs <> [] -> Forall (fun s => existsb is_slash (list_ascii_of_string s) = false) segs ->
  split_slash (join_slash segs) = segs.
Proof.
  induction segs as [|s segs IH]; intros Hne Hs; [done|]. inversion Hs as [|? ? Hs1 Hs2]; subst.
  destruct segs as [|s' segs]; [by apply no_slash_split|].
  rewrite join_slash_cons, split_slash_app_slash, no_slash_split, IH by done. done.
Qed.

Lemma norm_step_clean i acc s : clean_segment s = true -> norm_step i acc s = s :: acc.
Proof.
  unfold clean_segment, norm_step. intros H.
  destruct (s =? "")%string, (s =? ".")%string, (s =? "..")%string; simpl in *; by try discriminate.
Qed.

Lemma fold_norm_clean i segs acc :
  Forall (fun s => clean_segment s = true) segs ->
  fold_left (norm_step i) segs acc = rev segs ++ acc.
Proof.
  revert acc. induction segs as [|s segs IH]; intros acc Hs; simpl; [done|].
  inversion Hs; subst. rewrite norm_step_clean, IH by done. by rewrite <- app_assoc.
Qed.

Lemma string_app_String x a b : String x a +:+ b = String x (a +:+ b).
Proof. reflexivity. Qed.

Lemma string_app_assoc a b c : (a +:+ b) +:+ c = a +:+ (b +:+ c).
Proof. induction a as [|x a IH]; [done|]. by rewrite !string_app_String, IH. Qed.

Lemma app_nonempty_l a b : a <> "" -> a +:+ b <> "".
Proof. destruct a; [done|]. rewrite string_app_String. discriminate. Qed.

Lemma app_nonempty_r a b : b <> "" -> a +:+ b <> "".
Proof. destruct a; [done|]. rewrite string_app_String. discriminate. Qed.

(** Close [s <> ""] for a concatenation with a non-empty part. *)
Ltac nonempty_str :=
  repeat first [done | apply app_nonempty_l; done | apply app_nonempty_r].

Lemma list_ascii_app a b : list_ascii_of_string (a +:+ b) = list_ascii_of_string a ++ list_ascii_of_string b.
Proof. induction a as [|c a IH]; [done|]. rewrite string_app_String. simpl. by rewrite IH. Qed.

Lemma last_app_nonempty {A} (l1 l2 : list A) : l2 <> [] -> last (l1 ++ l2) = last l2.
Proof.
  intros Hl2. rewrite last_app. by apply last_is_Some in Hl2 as [y ->].
Qed.

Lemma ends_with_slash_app a b : b <> "" -> ends_with_slash (a +:+ b) = ends_with_slash b.
Proof.
  intros Hb. unfold ends_with_slash. rewrite list_ascii_app, last_app_nonempty; [done|].
  destruct b; [done|]. discriminate.
Qed.

Lemma clean_segment_inv s :
  clean_segment s = true -> s <> "" /\ s <> "." /\ s <> ".." /\
  existsb is_slash (list_ascii_of_string s) = false.
Proof.
  unfold clean_segment. intros H. repeat (apply andb_prop in H as [H ?]).
  apply negb_true_iff in H, H0, H1, H2. split_and!; [| | |done];
    intros ->; vm_compute in *; discriminate.
Qed.

Lemma clean_not_ends_with_slash s : clean_segment s = true -> ends_with_slash s = false.
Proof.
  intros (Hne & _ & _ & Hs)%clean_segment_inv. unfold ends_with_slash.
  destruct (last (list_ascii_of_string s)) as [c|] eqn:E; [|done].
  apply last_Some_elem_of, list_elem_of_In in E.
  destruct (is_slash c) eqn:Ec; [|done].
  rewrite <- Hs. symmetry. apply existsb_exists. eauto.
Qed.

Lemma join_slash_snoc init s :
  join_slash (init ++ [s]) = match init with [] => s | _ => join_slash init +:+ "/" +:+ s end.
Proof.
  induction init as [|x init IH]; [done|]. rewrite <- app_comm_cons.
  rewrite join_slash_cons by (by destruct init). rewrite IH.
  destruct init; [done|]. rewrite (join_slash_cons x) by done. by rewrite !string_app_assoc.
Qed.

(** A clean absolute path has no trailing slash... *)
Lemma abs_path_not_ends segs :
  segs <> [] -> Forall (fun s => clean_segment s = true) segs ->
  ends_with_slash (abs_path segs) = false.
Proof.
  intros Hne Hs. destruct (exists_last Hne) as (init & s & ->).
  apply Forall_app in Hs as [_ Hs]. inversion Hs as [|? ? Hc]; subst.
  pose proof (proj1 (clean_segment_inv s Hc)) as Hsne.
  unfold abs_path. rewrite join_slash_snoc. destruct init.
  - rewrite ends_with_slash_app by done. by apply clean_not_ends_with_slash.
  - rewrite !ends_with_slash_app by nonempty_str.
    by apply clean_not_ends_with_slash.
Qed.

(** ... and its components do not start with a slash. *)
Lemma join_clean_not_starts segs :
  segs <> [] -> Forall (fun s => clean_segment s = true) segs ->
  exists c r, join_slash segs = String c r /\ is_slash c = false.
Proof.
  intros Hne Hs. destruct segs as [|s tl]; [done|]. inversion Hs as [|? ? Hc]; subst.
  destruct (clean_segment_inv s Hc) as (Hsne & _ & _ & Hsl).
  destruct s as [|c r]; [done|]. rewrite join_slash_String. simpl in Hsl.
  apply orb_false_iff in Hsl as [Hc' _]. eauto.
Qed.

Lemma initial_slashes_abs c r : is_slash c = false -> initial_slashes (String "/" (String c r)) = 1.
Proof. intros Hc. unfold initial_slashes. by rewrite Hc. Qed.

Lemma split_slash_abs x : split_slash ("/" +:+ x) = "" :: split_slash x.
Proof. reflexivity. Qed.

Lemma clean_no_slash segs :
  Forall (fun s => clean_segment s = true) segs ->
  Forall (fun s => existsb is_slash (list_ascii_of_string s) = false) segs.
Proof. intros H. eapply Forall_impl; [exact H|]. intros s Hs. apply (clean_segment_inv s Hs). Qed.

Lemma string_app_empty s : "" +:+ s = s.
Proof. reflexivity. Qed.

(** A path that ends with a slash is a path followed by a slash. *)
Lemma ends_with_slash_split a : ends_with_slash a = true -> exists a', a = a' +:+ "/".
Proof.
  induction a as [|c a IH]; [done|]. intros H.
  destruct a as [|c' a'].
  - exists "". unfold ends_with_slash in H. simpl in H. apply is_slash_true in H as ->. done.
  - change (String c (String c' a')) with (String c "" +:+ String c' a') in H.
    rewrite ends_with_slash_app in H by done. destruct (IH H) as [a'' Ha].
    exists (String c a''). rewrite string_app_String. by rewrite <- Ha.
Qed.

(** The number of leading slashes [normpath] keeps depends on the first
    three characters only: after any prefix, two tails that start with a
    non-slash character give the same count. *)
Lemma initial_slashes_app a c1 r1 c2 r2 :
  is_slash c1 = false -> is_slash c2 = false ->
  initial_slashes (a +:+ String c1 r1) = initial_slashes (a +:+ String c2 r2).
Proof.
  intros H1 H2. destruct a as [|x [|y rest]].
  - rewrite !string_app_empty. unfold initial_slashes.
    destruct r1, r2; by rewrite H1, H2.
  - rewrite !string_app_String, !string_app_empty. unfold initial_slashes.
    by rewrite H1, H2, !andb_false_l.
  - rewrite !string_app_String. unfold initial_slashes.
    destruct rest as [|z rest]; rewrite ?string_app_empty, ?string_app_String; unfold starts_with_slash;
      by rewrite ?H1, ?H2.
Qed.

Lemma norm_step_dot k acc : norm_step k acc "." = acc.
Proof. reflexivity. Qed.

(** A [.] component before the last one changes nothing [normpath] computes. *)
Lemma normpath_dot a : normpath (a +:+ "/" +:+ "./js") = normpath (a +:+ "/" +:+ "js").
Proof.
  assert (Hi : initial_slashes (a +:+ "/" +:+ "./js") = initial_slashes (a +:+ "/" +:+ "js"))
    by (rewrite <- !string_app_assoc; by apply initial_slashes_app).
  unfold normpath, norm_comps. rewrite Hi, !split_slash_app_slash.
  change (split_slash "./js") with ["."; "js"]. change (split_slash "js") with ["js"].
  rewrite !fold_left_app. cbn [fold_left]. by rewrite norm_step_dot.
Qed.

(** ** Properties *)

(** C4: for a package directory given as an absolute path of clean
    components (what the host builds from its custom-node folder), the web
    directory the host serves for [WEB_DIRECTORY] is the subdirectory [js]
    of the package directory: it neither escapes the package nor names it
    through [.]/[..] components. *)
Theorem web_directory_resolves segs :
  segs <> [] -> Forall (fun s => clean_segment s = true) segs ->
  web_dir (abs_path segs) WEB_DIRECTORY = abs_path (segs ++ ["js"]).
Proof.
  intros Hne Hs. unfold web_dir, path_join.
  replace (starts_with_slash WEB_DIRECTORY) with false by reflexivity.
  rewrite abs_path_not_ends by done.
  replace (abs_path segs =? "")%string with false by reflexivity. simpl orb. cbv iota beta.
  unfold normpath, norm_comps.
  destruct (join_clean_not_starts segs Hne Hs) as (c & r & Hj & Hc).
  assert (Hi : initial_slashes (abs_path segs +:+ "/" +:+ WEB_DIRECTORY) = 1).
  { change (abs_path segs +:+ "/" +:+ WEB_DIRECTORY)
      with (String "/" (join_slash segs +:+ "/" +:+ WEB_DIRECTORY)).
    rewrite Hj, string_app_String. by apply initial_slashes_abs. }
  assert (Hsp : split_slash (abs_path segs +:+ "/" +:+ WEB_DIRECTORY) = "" :: segs ++ ["."; "js"]).
  { change (abs_path segs +:+ "/" +:+ WEB_DIRECTORY)
      with ("/" +:+ (join_slash segs +:+ "/" +:+ WEB_DIRECTORY)).
    rewrite split_slash_abs, split_slash_app_slash, split_join_slash; [done|done|].
    by apply clean_no_slash. }
  rewrite Hi, Hsp. cbn [fold_left]. rewrite fold_left_app, (fold_norm_clean 1 segs) by done.
  cbn. rewrite rev_app_distr, rev_involutive. done.
Qed.

Lemma web_directory_resolves_witness :
  ["srv"; "custom_nodes"; "chat"] <> [] /\
  Forall (fun s => clean_segment s = true) ["srv"; "custom_nodes"; "chat"] /\
  web_dir (abs_path ["srv"; "custom_nodes"; "chat"]) WEB_DIRECTORY =
    abs_path (["srv"; "custom_nodes"; "chat"] ++ ["js"]).
Proof.
  assert (H1 : ["srv"; "custom_nodes"; "chat"] <> []) by discriminate.
  assert (H2 : Forall (fun s => clean_segment s = true) ["srv"; "custom_nodes"; "chat"])
    by (repeat constructor).
  split; [exact H1|]. split; [exact H2|]. exact (web_directory_resolves _ H1 H2).
Defined.

(** C16: whatever the package directory is (absolute or relative,
    normalised or not, with or without a trailing slash, even empty),
    [WEB_DIRECTORY] resolves exactly as the bare relative name [js] would:
    its [./] prefix is inert, so the host serves the subdirectory [js] of
    the package directory and nothing else. *)
Theorem web_directory_relative moddir : web_dir moddir WEB_DIRECTORY = web_dir moddir "js".
Proof.
  unfold web_dir, path_join.
  change (starts_with_slash WEB_DIRECTORY) with false. change (starts_with_slash "js") with false.
  cbv iota. destruct (moddir =? "")%string eqn:E.
  - apply String.eqb_eq in E as ->. reflexivity.
  - rewrite orb_false_l. destruct (ends_with_slash moddir) eqn:Ew.
    + destruct (ends_with_slash_split moddir Ew) as [a ->]. rewrite !string_app_assoc.
      exact (normpath_dot a).
    + exact (normpath_dot moddir).
Qed.
