(* ===== verification/HostLoader.v ===== *)
(** * The host's extension loader

    What the host does with an imported extension, as the specification
    describes it: it retrieves [WEB_DIRECTORY], [NODE_CLASS_MAPPINGS] and
    [NODE_DISPLAY_NAME_MAPPINGS] by name ([read_manifest]), adds the two
    mappings to its own registries (in the extension's order, a later
    extension overriding an earlier one on a shared key, as [dict.update]
    does) and, when the resolved web directory exists, records it as the
    extension's asset directory; a missing directory is skipped, not an
    error.

    [HostExtension] is the interface between the two sides: an extension
    offers a namespace from which a well-formed manifest can be read.  The
    host's lemmas are proved once against it; the package discharges it. *)

From stdpp Require Import base list sets gmap strings relations.
From S2P Require Import Prelude PyValue PyExec ChatAssistant HostPaths.
Set Default Goal Selector "!".
Set Warnings "-register-all".

(** ** The host *)

Record host_state := {
  host_nodes : pydict;                   (** the node class registry *)
  host_display : pydict;                 (** the display-name registry *)
  host_web_dirs : gmap string string     (** extension name to asset directory *)
}.

(** The host's registry invariant: both registries are dicts and every
    display name belongs to a registered node type. *)
Definition host_inv (h : host_state) : Prop :=
  dict_wf (host_nodes h) /\ dict_wf (host_display h) /\
  dict_keys (host_display h) ⊆ dict_keys (host_nodes h).

(** Apply a retrieved manifest to the host state. *)
Definition apply_manifest (is_dir : string -> bool) (h : host_state) (modname moddir : string)
    (m : Manifest) : host_state :=
  let web := web_dir moddir (web_asset_path m) in
  {| host_nodes := dict_update (host_nodes h) (node_registry m);
     host_display := dict_update (host_display h) (display_name_registry m);
     host_web_dirs := if is_dir web then <[modname := web]> (host_web_dirs h)
                      else host_web_dirs h |}.

(** Load the extension named [modname], imported from [moddir], whose
    module namespace is [ns]. *)
Definition load_extension (is_dir : string -> bool) (h : host_state) (modname moddir : string)
    (ns : namespace) : result pyexc host_state :=
  m <- read_manifest ns ;;
  Ok (apply_manifest is_dir h modname moddir m).

(** One load of a well-formed extension. *)
Inductive host_step (is_dir : string -> bool) : host_state -> host_state -> Prop :=
| host_step_load h modname moddir ns m :
    read_manifest ns = Ok m -> manifest_wf m ->
    host_step is_dir h (apply_manifest is_dir h modname moddir m).

(** ** The interface between an extension and the host *)

Class HostExtension (E : Type) := {
  ext_namespace : E -> namespace;
  ext_manifest : E -> Manifest;
  ext_read : forall e, read_manifest (ext_namespace e) = Ok (ext_manifest e);
  ext_wf : forall e, manifest_wf (ext_manifest e)
}.

(** The package, as the host meets it: the namespace its body leaves when
    run at optimisation level [ca_opt] from [ca_ns0]. *)
Record chat_module := {
  ca_opt : nat;
  ca_ns0 : namespace;
  ca_ok : annotations_ok ca_ns0
}.

(** The manifest the package's namespace yields. *)
Definition chat_manifest : Manifest := {|
  web_asset_path := WEB_DIRECTORY;
  node_registry := match display_value NODE_CLASS_MAPPINGS with VDict d => d | _ => [] end;
  display_name_registry := match display_value NODE_DISPLAY_NAME_MAPPINGS with VDict d => d | _ => [] end
|}.

(** ** Lemmas *)

Lemma apply_manifest_inv is_dir h modname moddir m :
  host_inv h -> manifest_wf m -> host_inv (apply_manifest is_dir h modname moddir m).
Proof.
  intros (Hn & Hd & Hsub) (Hmn & Hmd & _ & Hmsub & _). unfold host_inv, apply_manifest; simpl.
  split_and!; [by apply dict_update_wf..|].
  intros x. rewrite !dict_keys_update_elem. intros [Hx|Hx]; [left; by apply Hmsub|right; by apply Hsub].
Qed.

Lemma host_step_inv is_dir h h' : host_step is_dir h h' -> host_inv h -> host_inv h'.
Proof. intros [? ? ? ? m _ Hwf] Hh. by apply apply_manifest_inv. Qed.

(** The invariant holds in every state reachable by loads. *)
Lemma host_reachable_inv_gen is_dir h0 h :
  rtc (host_step is_dir) h0 h -> host_inv h0 -> host_inv h.
Proof. induction 1 as [|h1 h2 h3 Hs _ IH]; [done|]. intros H0. apply IH. by eapply host_step_inv. Qed.

Section Loading.
Context {E : Type} `{HostExtension E}.
Variable is_dir : string -> bool.

Lemma load_extension_ok h modname moddir (e : E) :
  load_extension is_dir h modname moddir (ext_namespace e) =
  Ok (apply_manifest is_dir h modname moddir (ext_manifest e)).
Proof. unfold load_extension. by rewrite ext_read. Qed.

Lemma load_extension_step h modname moddir (e : E) :
  host_step is_dir h (apply_manifest is_dir h modname moddir (ext_manifest e)).
Proof. econstructor; [apply ext_read|apply ext_wf]. Qed.

Lemma load_extension_inv h modname moddir (e : E) :
  host_inv h -> host_inv (apply_manifest is_dir h modname moddir (ext_manifest e)).
Proof. intros Hh. apply apply_manifest_inv; [done|apply ext_wf]. Qed.
End Loading.

(** The package's namespace yields its manifest, which is well formed. *)
Lemma module_result_manifest o ns : read_manifest (module_result o ns) = Ok chat_manifest.
Proof.
  unfold read_manifest, getattr_str, getattr_dict, module_result, module_partial.
  ns_lookup. reflexivity.
Qed.

Lemma chat_manifest_wf : manifest_wf chat_manifest.
Proof. decide_closed. Qed.

#[export] Instance chat_extension : HostExtension chat_module := {
  ext_namespace c := module_result (ca_opt c) (ca_ns0 c);
  ext_manifest _ := chat_manifest;
  ext_read c := module_result_manifest (ca_opt c) (ca_ns0 c);
  ext_wf _ := chat_manifest_wf
}.

(** A namespace produced by the body is the namespace of a [chat_module]. *)
Lemma exec_chat_module o ns ns' :
  exec_module o module_body ns = Ok ns' ->
  exists c : chat_module, ext_namespace c = ns'.
Proof.
  intros H. apply exec_module_body_Ok in H as [Ha ->].
  by exists {| ca_opt := o; ca_ns0 := ns; ca_ok := Ha |}.
Qed.

Lemma load_chat_eq is_dir o ns ns' h modname moddir :
  exec_module o module_body ns = Ok ns' ->
  load_extension is_dir h modname moddir ns' = Ok (apply_manifest is_dir h modname moddir chat_manifest).
Proof.
  intros H. destruct (exec_chat_module _ _ _ H) as [c <-].
  exact (load_extension_ok is_dir h modname moddir c).
Qed.

(** ** Properties *)

(** C5: loading the package into any host state does not fail, adds no
    node type and no display name (the host's registries are unchanged) and
    records the resolved web directory as the package's asset directory
    exactly when that directory exists. *)
Theorem load_chat_assistant is_dir o ns ns' h modname moddir :
  exec_module o module_body ns = Ok ns' ->
  exists h', load_extension is_dir h modname moddir ns' = Ok h' /\
    host_nodes h' = host_nodes h /\ host_display h' = host_display h /\
    host_web_dirs h' =
      (if is_dir (web_dir moddir WEB_DIRECTORY)
       then <[modname := web_dir moddir WEB_DIRECTORY]> (host_web_dirs h) else host_web_dirs h).
Proof.
  intros H. eexists. split; [by eapply load_chat_eq|]. done.
Qed.

Lemma load_chat_assistant_witness :
  exec_module 0 module_body ∅ = Ok (module_result 0 ∅) /\
  exists h', load_extension (fun _ => true) {| host_nodes := []; host_display := []; host_web_dirs := ∅ |}
               "chat" "/srv/custom_nodes/chat" (module_result 0 ∅) = Ok h' /\
    host_nodes h' = [] /\ host_display h' = [] /\
    host_web_dirs h' =
      (if (fun _ => true) (web_dir "/srv/custom_nodes/chat" WEB_DIRECTORY)
       then <["chat" := web_dir "/srv/custom_nodes/chat" WEB_DIRECTORY]> ∅ else ∅).
Proof.
  assert (H : exec_module 0 module_body ∅ = Ok (module_result 0 ∅))
    by (apply exec_module_body; vm_compute; exact I).
  split; [exact H|]. exact (load_chat_assistant (fun _ => true) 0 ∅ _ _ "chat" "/srv/custom_nodes/chat" H).
Defined.

(** C6: in every host state reachable from a state satisfying the registry
    invariant by loads of well-formed extensions, the package can be loaded;
    the load is itself such a step, so the invariant holds after it. *)
Theorem host_reachable_inv is_dir h0 h o ns ns' modname moddir :
  rtc (host_step is_dir) h0 h -> host_inv h0 ->
  exec_module o module_body ns = Ok ns' ->
  exists h', load_extension is_dir h modname moddir ns' = Ok h' /\
    rtc (host_step is_dir) h0 h' /\ host_inv h'.
Proof.
  intros Hr H0 H. destruct (exec_chat_module _ _ _ H) as [c <-].
  eexists. split; [apply load_extension_ok|].
  assert (Hr' : rtc (host_step is_dir) h0 (apply_manifest is_dir h modname moddir (ext_manifest c)))
    by (eapply rtc_r; [exact Hr|apply load_extension_step]).
  split; [exact Hr'|]. by eapply host_reachable_inv_gen.
Qed.

Lemma host_reachable_inv_witness :
  rtc (host_step (fun _ => false)) {| host_nodes := []; host_display := []; host_web_dirs := ∅ |}
                                   {| host_nodes := []; host_display := []; host_web_dirs := ∅ |} /\
  host_inv {| host_nodes := []; host_display := []; host_web_dirs := ∅ |} /\
  exec_module 0 module_body ∅ = Ok (module_result 0 ∅) /\
  exists h', load_extension (fun _ => false) {| host_nodes := []; host_display := []; host_web_dirs := ∅ |}
               "chat" "/srv/custom_nodes/chat" (module_result 0 ∅) = Ok h' /\
    rtc (host_step (fun _ => false)) {| host_nodes := []; host_display := []; host_web_dirs := ∅ |} h' /\
    host_inv h'.
Proof.
  assert (Hr : rtc (host_step (fun _ => false)) {| host_nodes := []; host_display := []; host_web_dirs := ∅ |}
                                   {| host_nodes := []; host_display := []; host_web_dirs := ∅ |})
    by apply rtc_refl.
  assert (H0 : host_inv {| host_nodes := []; host_display := []; host_web_dirs := ∅ |})
    by (unfold host_inv, dict_wf; simpl; split_and!; [constructor|constructor|done]).
  assert (H : exec_module 0 module_body ∅ = Ok (module_result 0 ∅))
    by (apply exec_module_body; vm_compute; exact I).
  split; [exact Hr|]. split; [exact H0|]. split; [exact H|].
  exact (host_reachable_inv _ _ _ 0 ∅ _ "chat" "/srv/custom_nodes/chat" Hr H0 H).
Defined.
