(* ===== verification/HostStartup.v ===== *)
(** * The host's start-up: importing and loading every extension

    At start-up the host goes through its custom-node packages in order.
    For each one it imports the package ([Import.import_module], which
    registers it in [sys.modules]) and loads its manifest into its
    registries ([HostLoader.load_extension]).  A package whose import raises,
    or whose manifest cannot be read, is logged as failed and skipped: the
    host itself does not fail (specification, sections 7 and 8).
    [load_package] is one such step and [startup] the loop; the state
    threaded through is [sys.modules], the host state and the log of
    (package, loaded?) pairs.

    The theorems compose the three components: wherever the package sits
    in the list of packages, it is loaded and its web directory registered
    (a liveness property of the loop); its presence changes neither the
    node palette nor [sys.modules] apart from its own entry (proved with a
    simulation relation between the runs with and without it, as in a
    simulation diagram); and a reload of the package restores the manifest
    the host reads. *)

From stdpp Require Import base list sets gmap strings.
From S2P Require Import Prelude PyValue PyExec ChatAssistant Import HostPaths HostLoader.
Set Default Goal Selector "!".
Set Warnings "-register-all".

(** ** The start-up loop *)

Record startup_state := mk_startup {
  st_mods : sys_modules;
  st_host : host_state;
  st_log : list (string * bool)
}.

(** Import the package [name] found in [dir], then load its manifest; a
    failure at either step is logged and skipped. *)
Definition load_package (o : nat) (find : finder) (is_dir : string -> bool)
    (st : startup_state) (pkg : string * string) : startup_state :=
  let '(name, dir) := pkg in
  match import_module o find (st_mods st) name with
  | (Ok m, mods) =>
      match load_extension is_dir (st_host st) name dir (mod_dict m) with
      | Ok h => mk_startup mods h (st_log st ++ [(name, true)])
      | Err _ => mk_startup mods (st_host st) (st_log st ++ [(name, false)])
      end
  | (Err _, mods) => mk_startup mods (st_host st) (st_log st ++ [(name, false)])
  end.

(** The loop over the packages, in order. *)
Definition startup (o : nat) (find : finder) (is_dir : string -> bool)
    (pkgs : list (string * string)) (st : startup_state) : startup_state :=
  fold_left (load_package o find is_dir) pkgs st.

(** The relation between a run with the package and the same run without
    it: [sys.modules] differs by the package's entry only, and the two
    registries are equal. *)
Definition startup_sim (name : string) (st1 st2 : startup_state) : Prop :=
  (exists mc, st_mods st1 = <[name := mc]> (st_mods st2)) /\ st_mods st2 !! name = None /\
  host_nodes (st_host st1) = host_nodes (st_host st2) /\
  host_display (st_host st1) = host_display (st_host st2).

(** ** Lemmas *)

(** [load_extension] fails or succeeds whatever the host state is, and
    what it does to the host depends on the manifest alone. *)
Lemma load_extension_read is_dir h name dir ns :
  load_extension is_dir h name dir ns = result_map (apply_manifest is_dir h name dir) (read_manifest ns).
Proof. unfold load_extension. by destruct (read_manifest ns). Qed.

(** An import touches [sys.modules] only at the imported name. *)
Lemma import_module_lookup_ne o find mods n name :
  n <> name -> (import_module o find mods n).2 !! name = mods !! name.
Proof.
  intros Hn. unfold import_module.
  destruct (mods !! n); [done|]. destruct (find n); [|done]. simpl.
  destruct (exec_module _ _ _) as [?|[? ?]]; simpl; by simplify_map_eq.
Qed.

(** An entry under another name does not change what an import does. *)
Lemma import_module_insert_ne o find mods n name mc :
  n <> name ->
  import_module o find (<[name := mc]> mods) n =
  ((import_module o find mods n).1, <[name := mc]> (import_module o find mods n).2).
Proof.
  intros Hn. unfold import_module. rewrite lookup_insert_ne by congruence.
  destruct (mods !! n); [done|]. destruct (find n); [|done]. simpl.
  destruct (exec_module _ _ _) as [?|[? ?]]; simpl; apply (f_equal (pair _));
    apply map_eq; intros k; destruct (decide (k = name)), (decide (k = n)); subst;
    by simplify_map_eq.
Qed.

Lemma load_package_mods o find is_dir st name dir :
  st_mods (load_package o find is_dir st (name, dir)) = (import_module o find (st_mods st) name).2.
Proof.
  unfold load_package. destruct (import_module _ _ _ _) as [[m|e] mods]; [|done].
  by destruct (load_extension _ _ _ _ _).
Qed.

Lemma load_package_log o find is_dir st name dir :
  exists b, st_log (load_package o find is_dir st (name, dir)) = st_log st ++ [(name, b)].
Proof.
  unfold load_package. destruct (import_module _ _ _ _) as [[m|e] mods]; [|by eexists].
  destruct (load_extension _ _ _ _ _); by eexists.
Qed.

(** The loop only appends to the log. *)
Lemma startup_log o find is_dir pkgs st :
  exists l, st_log (startup o find is_dir pkgs st) = st_log st ++ l.
Proof.
  unfold startup. revert st. induction pkgs as [|[n d] pkgs IH]; intros st; cbn [fold_left].
  { exists []. by rewrite app_nil_r. }
  destruct (IH (load_package o find is_dir st (n, d))) as [l ->].
  destruct (load_package_log o find is_dir st n d) as [b ->].
  exists ((n, b) :: l). by rewrite <- app_assoc.
Qed.

(** Packages of other names leave the entry of [name] in [sys.modules]. *)
Lemma startup_mods_ne o find is_dir pkgs st name :
  name ∉ pkgs.*1 -> st_mods (startup o find is_dir pkgs st) !! name = st_mods st !! name.
Proof.
  unfold startup. revert st. induction pkgs as [|[n d] pkgs IH]; intros st Hn; [done|].
  cbn [fold_left] in *. rewrite IH by set_solver. rewrite load_package_mods.
  apply import_module_lookup_ne. set_solver.
Qed.

(** Packages of other names leave the web directory of [name]. *)
Lemma startup_web_ne o find is_dir pkgs st name :
  name ∉ pkgs.*1 ->
  host_web_dirs (st_host (startup o find is_dir pkgs st)) !! name = host_web_dirs (st_host st) !! name.
Proof.
  unfold startup. revert st. induction pkgs as [|[n d] pkgs IH]; intros st Hn; [done|].
  cbn [fold_left] in *. rewrite IH by set_solver. unfold load_package.
  destruct (import_module _ _ _ _) as [[m|e] mods]; [|done].
  rewrite load_extension_read. destruct (read_manifest _); [|done]. simpl.
  destruct (is_dir _); [|done]. apply lookup_insert_ne. set_solver.
Qed.

(** The step of the package itself, from a state where its name is free. *)
Lemma load_package_chat o find is_dir st name dir :
  find name = Some (chat_spec name dir) -> st_mods st !! name = None ->
  load_package o find is_dir st (name, dir) =
  mk_startup (<[name := mk_module name (module_result o (new_module_ns (chat_spec name dir)))]> (st_mods st))
             (apply_manifest is_dir (st_host st) name dir chat_manifest)
             (st_log st ++ [(name, true)]).
Proof.
  intros Hf Hm. unfold load_package. rewrite (import_chat_fresh _ _ _ _ _ Hm Hf). simpl.
  rewrite load_extension_read, module_result_manifest. done.
Qed.

Section Simulation.
Variables (o : nat) (find : finder) (is_dir : string -> bool) (name : string).

(** A package of another name keeps the two runs related. *)
Lemma load_package_sim st1 st2 n d :
  n <> name -> startup_sim name st1 st2 ->
  startup_sim name (load_package o find is_dir st1 (n, d)) (load_package o find is_dir st2 (n, d)).
Proof.
  intros Hn ([mc Hm] & Hfree & Hnodes & Hdisp). unfold load_package.
  rewrite Hm, import_module_insert_ne by done.
  pose proof (import_module_lookup_ne o find (st_mods st2) n name Hn) as Hl.
  destruct (import_module o find (st_mods st2) n) as [[m|e] mods]; simpl in *.
  - rewrite !load_extension_read. destruct (read_manifest (mod_dict m)); unfold startup_sim; simpl.
    + split_and!; [by exists mc|congruence|by rewrite Hnodes|by rewrite Hdisp].
    + split_and!; [by exists mc|congruence|done|done].
  - unfold startup_sim; simpl. split_and!; [by exists mc|congruence|done|done].
Qed.

Lemma startup_sim_run pkgs st1 st2 :
  name ∉ pkgs.*1 -> startup_sim name st1 st2 ->
  startup_sim name (startup o find is_dir pkgs st1) (startup o find is_dir pkgs st2).
Proof.
  unfold startup. revert st1 st2. induction pkgs as [|[n d] pkgs IH]; intros st1 st2 Hn Hs; [done|].
  cbn [fold_left] in *. apply IH; [set_solver|]. apply load_package_sim; [set_solver|done].
Qed.
End Simulation.

(** The loop over [pre ++ pkg :: post] is the loop over [post] after the
    step of [pkg] from the state [pre] leads to. *)
Lemma startup_app_cons o find is_dir pre pkg post st :
  startup o find is_dir (pre ++ pkg :: post) st =
  startup o find is_dir post (load_package o find is_dir (startup o find is_dir pre st) pkg).
Proof. unfold startup. by rewrite fold_left_app. Qed.

Lemma startup_app o find is_dir pre post st :
  startup o find is_dir (pre ++ post) st = startup o find is_dir post (startup o find is_dir pre st).
Proof. unfold startup. by rewrite fold_left_app. Qed.

(** The package is logged as loaded, whatever follows it. *)
Lemma startup_chat_logged o find is_dir pre post name dir st :
  find name = Some (chat_spec name dir) -> st_mods st !! name = None -> name ∉ pre.*1 ->
  (name, true) ∈ st_log (startup o find is_dir (pre ++ (name, dir) :: post) st).
Proof.
  intros Hf Hm Hpre. rewrite startup_app_cons, load_package_chat; [|done|by rewrite startup_mods_ne].
  match goal with |- _ ∈ st_log (startup _ _ _ _ ?s) =>
    destruct (startup_log o find is_dir post s) as [l ->] end.
  simpl. set_solver.
Qed.

(** ** Properties *)

(** C18: wherever the package sits in the list of packages the host loads
    at start-up, and whatever the other packages do (fail to import, fail
    to provide a manifest, register nodes), the package is loaded: the log
    records it as loaded, and its resolved web directory is registered
    under its name when that directory exists. *)
Theorem startup_loads_chat o find is_dir pre post name dir st :
  find name = Some (chat_spec name dir) -> st_mods st !! name = None ->
  name ∉ pre.*1 -> name ∉ post.*1 ->
  (name, true) ∈ st_log (startup o find is_dir (pre ++ (name, dir) :: post) st) /\
  host_web_dirs (st_host (startup o find is_dir (pre ++ (name, dir) :: post) st)) !! name =
    (if is_dir (web_dir dir WEB_DIRECTORY) then Some (web_dir dir WEB_DIRECTORY)
     else host_web_dirs (st_host st) !! name).
Proof.
  intros Hf Hm Hpre Hpost. split; [by apply startup_chat_logged|].
  rewrite startup_app_cons, load_package_chat; [|done|by rewrite startup_mods_ne].
  rewrite startup_web_ne by done. simpl.
  destruct (is_dir _); [apply lookup_insert_eq|by apply startup_web_ne].
Qed.

Lemma startup_loads_chat_witness :
  (fun n => if decide (n = "chat") then Some (chat_spec "chat" "/nodes/chat") else None) "chat" =
    Some (chat_spec "chat" "/nodes/chat") /\
  st_mods (mk_startup ∅ {| host_nodes := []; host_display := []; host_web_dirs := ∅ |} []) !! "chat" = None /\
  "chat" ∉ [("broken", "/nodes/broken")].*1 /\ "chat" ∉ [("other", "/nodes/other")].*1 /\
  ("chat", true) ∈ st_log (startup 0
      (fun n => if decide (n = "chat") then Some (chat_spec "chat" "/nodes/chat") else None) (fun _ => true)
      ([("broken", "/nodes/broken")] ++ ("chat", "/nodes/chat") :: [("other", "/nodes/other")])
      (mk_startup ∅ {| host_nodes := []; host_display := []; host_web_dirs := ∅ |} [])) /\
  host_web_dirs (st_host (startup 0
      (fun n => if decide (n = "chat") then Some (chat_spec "chat" "/nodes/chat") else None) (fun _ => true)
      ([("broken", "/nodes/broken")] ++ ("chat", "/nodes/chat") :: [("other", "/nodes/other")])
      (mk_startup ∅ {| host_nodes := []; host_display := []; host_web_dirs := ∅ |} []))) !! "chat" =
    (if (fun _ => true) (web_dir "/nodes/chat" WEB_DIRECTORY) then Some (web_dir "/nodes/chat" WEB_DIRECTORY)
     else host_web_dirs {| host_nodes := []; host_display := []; host_web_dirs := ∅ |} !! "chat").
Proof.
  assert (Hf : (fun n => if decide (n = "chat") then Some (chat_spec "chat" "/nodes/chat") else None) "chat" =
               Some (chat_spec "chat" "/nodes/chat")) by reflexivity.
  assert (Hm : st_mods (mk_startup ∅ {| host_nodes := []; host_display := []; host_web_dirs := ∅ |} [])
                 !! "chat" = None) by reflexivity.
  assert (Hpre : "chat" ∉ [("broken", "/nodes/broken")].*1) by decide_closed.
  assert (Hpost : "chat" ∉ [("other", "/nodes/other")].*1) by decide_closed.
  split; [exact Hf|]. split; [exact Hm|]. split; [exact Hpre|]. split; [exact Hpost|].
  exact (startup_loads_chat 0 _ (fun _ => true) _ _ "chat" "/nodes/chat" _ Hf Hm Hpre Hpost).
Defined.

(** C19: the package is invisible to the node palette: a start-up with it
    ends with the same node registry and display-name registry as the same
    start-up without it, and with the same [sys.modules] apart from the
    package's own entry. *)
Theorem startup_chat_invisible o find is_dir pre post name dir st :
  find name = Some (chat_spec name dir) -> st_mods st !! name = None ->
  name ∉ pre.*1 -> name ∉ post.*1 ->
  host_nodes (st_host (startup o find is_dir (pre ++ (name, dir) :: post) st)) =
    host_nodes (st_host (startup o find is_dir (pre ++ post) st)) /\
  host_display (st_host (startup o find is_dir (pre ++ (name, dir) :: post) st)) =
    host_display (st_host (startup o find is_dir (pre ++ post) st)) /\
  delete name (st_mods (startup o find is_dir (pre ++ (name, dir) :: post) st)) =
    st_mods (startup o find is_dir (pre ++ post) st).
Proof.
  intros Hf Hm Hpre Hpost. rewrite startup_app_cons, startup_app.
  assert (Hfree : st_mods (startup o find is_dir pre st) !! name = None) by (by rewrite startup_mods_ne).
  rewrite load_package_chat by done.
  match goal with |- context [startup o find is_dir post (mk_startup ?a ?b ?c)] =>
    destruct (startup_sim_run o find is_dir name post (mk_startup a b c) (startup o find is_dir pre st) Hpost)
      as ([mc ->] & Hfree' & Hn & Hd) end.
  - split_and!; [by eexists|done| |]; simpl; apply dict_update_nil.
  - split_and!; [done|done|]. by apply delete_insert_id.
Qed.

Lemma startup_chat_invisible_witness :
  (fun n => if decide (n = "chat") then Some (chat_spec "chat" "/nodes/chat") else None) "chat" =
    Some (chat_spec "chat" "/nodes/chat") /\
  st_mods (mk_startup ∅ {| host_nodes := []; host_display := []; host_web_dirs := ∅ |} []) !! "chat" = None /\
  "chat" ∉ [("broken", "/nodes/broken")].*1 /\ "chat" ∉ [("other", "/nodes/other")].*1 /\
  host_nodes (st_host (startup 0
      (fun n => if decide (n = "chat") then Some (chat_spec "chat" "/nodes/chat") else None) (fun _ => true)
      ([("broken", "/nodes/broken")] ++ ("chat", "/nodes/chat") :: [("other", "/nodes/other")])
      (mk_startup ∅ {| host_nodes := []; host_display := []; host_web_dirs := ∅ |} []))) =
  host_nodes (st_host (startup 0
      (fun n => if decide (n = "chat") then Some (chat_spec "chat" "/nodes/chat") else None) (fun _ => true)
      ([("broken", "/nodes/broken")] ++ [("other", "/nodes/other")])
      (mk_startup ∅ {| host_nodes := []; host_display := []; host_web_dirs := ∅ |} []))) /\
  host_display (st_host (startup 0
      (fun n => if decide (n = "chat") then Some (chat_spec "chat" "/nodes/chat") else None) (fun _ => true)
      ([("broken", "/nodes/broken")] ++ ("chat", "/nodes/chat") :: [("other", "/nodes/other")])
      (mk_startup ∅ {| host_nodes := []; host_display := []; host_web_dirs := ∅ |} []))) =
  host_display (st_host (startup 0
      (fun n => if decide (n = "chat") then Some (chat_spec "chat" "/nodes/chat") else None) (fun _ => true)
      ([("broken", "/nodes/broken")] ++ [("other", "/nodes/other")])
      (mk_startup ∅ {| host_nodes := []; host_display := []; host_web_dirs := ∅ |} []))) /\
  delete "chat" (st_mods (startup 0
      (fun n => if decide (n = "chat") then Some (chat_spec "chat" "/nodes/chat") else None) (fun _ => true)
      ([("broken", "/nodes/broken")] ++ ("chat", "/nodes/chat") :: [("other", "/nodes/other")])
      (mk_startup ∅ {| host_nodes := []; host_display := []; host_web_dirs := ∅ |} []))) =
  st_mods (startup 0
      (fun n => if decide (n = "chat") then Some (chat_spec "chat" "/nodes/chat") else None) (fun _ => true)
      ([("broken", "/nodes/broken")] ++ [("other", "/nodes/other")])
      (mk_startup ∅ {| host_nodes := []; host_display := []; host_web_dirs := ∅ |} [])).
Proof.
  assert (Hf : (fun n => if decide (n = "chat") then Some (chat_spec "chat" "/nodes/chat") else None) "chat" =
               Some (chat_spec "chat" "/nodes/chat")) by reflexivity.
  assert (Hm : st_mods (mk_startup ∅ {| host_nodes := []; host_display := []; host_web_dirs := ∅ |} [])
                 !! "chat" = None) by reflexivity.
  assert (Hpre : "chat" ∉ [("broken", "/nodes/broken")].*1) by decide_closed.
  assert (Hpost : "chat" ∉ [("other", "/nodes/other")].*1) by decide_closed.
  split; [exact Hf|]. split; [exact Hm|]. split; [exact Hpre|]. split; [exact Hpost|].
  exact (startup_chat_invisible 0 _ (fun _ => true) _ _ "chat" "/nodes/chat" _ Hf Hm Hpre Hpost).
Defined.

(** C20: whatever has happened to the package's namespace since it was
    imported (another extension adding entries to its mappings, a rebinding
    of [WEB_DIRECTORY]), [importlib.reload] restores the manifest the host
    reads from it to the one of the source, as long as [__annotations__]
    is still a dict or unbound. *)
Theorem reload_restores_manifest o find mods name dir m :
  find name = Some (chat_spec name dir) -> mods !! name = Some m -> mod_name m = name ->
  annotations_ok (mod_dict m) ->
  exists m', reload_module o find mods m = (Ok m', <[name := m']> mods) /\
    read_manifest (mod_dict m') = Ok chat_manifest.
Proof.
  intros Hf Hm Hn Ha. unfold reload_module. rewrite Hn, decide_True by exact Hm. rewrite Hf.
  change (spec_body (chat_spec name dir)) with module_body.
  rewrite exec_module_body.
  - eexists. split; [done|]. apply module_result_manifest.
  - unfold annotations_ok in *. by rewrite init_module_attrs_annotations.
Qed.

Lemma reload_restores_manifest_witness :
  let m := mk_module "chat" (<["WEB_DIRECTORY" := VStr "/tmp"]>
             {["NODE_CLASS_MAPPINGS" := VDict [("Injected", VType "InjectedNode")]]}) in
  (fun n => if decide (n = "chat") then Some (chat_spec "chat" "/nodes/chat") else None) "chat" =
    Some (chat_spec "chat" "/nodes/chat") /\
  ({["chat" := m]} : sys_modules) !! "chat" = Some m /\ mod_name m = "chat" /\
  annotations_ok (mod_dict m) /\
  exists m', reload_module 0
      (fun n => if decide (n = "chat") then Some (chat_spec "chat" "/nodes/chat") else None)
      {["chat" := m]} m = (Ok m', <["chat" := m']> {["chat" := m]}) /\
    read_manifest (mod_dict m') = Ok chat_manifest.
Proof.
  intros m.
  assert (Hf : (fun n => if decide (n = "chat") then Some (chat_spec "chat" "/nodes/chat") else None) "chat" =
               Some (chat_spec "chat" "/nodes/chat")) by reflexivity.
  assert (Hm : ({["chat" := m]} : sys_modules) !! "chat" = Some m) by reflexivity.
  assert (Hn : mod_name m = "chat") by reflexivity.
  assert (Ha : annotations_ok (mod_dict m)) by decide_closed.
  split; [exact Hf|]. split; [exact Hm|]. split; [exact Hn|]. split; [exact Ha|].
  exact (reload_restores_manifest 0 _ _ "chat" "/nodes/chat" m Hf Hm Hn Ha).
Defined.
